(** * py-parser: the syntax-tree analyzer, the directory walker and the
      source-locator dispatcher of [src/app.py], embedded in Rocq.

    The development follows the layout of the Python module:

    - [PyStr]: the string and path primitives the module calls
      ([str.endswith], [str.rsplit], [os.path.join], [os.path.basename],
      [os.path.relpath]);
    - [PyValue]: the values the analyzer builds ([dict], [defaultdict(list)],
      [list], [str], numbers, [None]) and [json.dumps];
    - [PyAst]: the syntax tree of the [ast] module and
      [ast.NodeVisitor.generic_visit];
    - [Analyzer]: the class [Analyzer] and [parse_node];
    - [Walker]: [process_regular_file], [process_directory],
      [process_url], [parse_source_file]. *)

From Stdlib Require Import ZArith List String Ascii Bool Lia.
From Stdlib Require Import Numbers.DecimalString.
From stdpp Require Import gmap strings.
Import ListNotations.

Local Open Scope string_scope.
Local Open Scope list_scope.

(* ===================================================================== *)
(** ** Strings and paths *)
(* ===================================================================== *)

Module PyStr.

(** [s.endswith(suffix)] *)
Definition endswith (s suffix : string) : bool :=
  let n := String.length s in
  let m := String.length suffix in
  (m <=? n)%nat && String.eqb (String.substring (n - m) m s) suffix.

(** [s.startswith(prefix)] *)
Definition startswith (s prefix : string) : bool := String.prefix prefix s.

(** The text that follows the last occurrence of [c] in [s], when [c]
    occurs in [s]. *)
Fixpoint rfind_tail (c : ascii) (s : string) : option string :=
  match s with
  | EmptyString => None
  | String a r =>
      match rfind_tail c r with
      | Some t => Some t
      | None => if Ascii.eqb a c then Some r else None
      end
  end.

(** [s.rsplit(sep, 1)[-1]] for a one-character separator. *)
Definition rsplit1_last (sep : ascii) (s : string) : string :=
  match rfind_tail sep s with
  | Some t => t
  | None => s
  end.

(** [s.split(sep)] for a one-character separator: the maximal runs of
    characters other than [sep], empty runs included. *)
Fixpoint split (sep : ascii) (s : string) : list string :=
  match s with
  | EmptyString => [EmptyString]
  | String a r =>
      if Ascii.eqb a sep then EmptyString :: split sep r
      else match split sep r with
           | [] => [String a EmptyString]
           | w :: ws => String a w :: ws
           end
  end.

(** [sep.join(parts)] *)
Fixpoint join (sep : string) (parts : list string) : string :=
  match parts with
  | [] => EmptyString
  | [p] => p
  | p :: ps => String.append p (String.append sep (join sep ps))
  end.

Definition slash : ascii := "/"%char.

(** [posixpath.join(a, b)]: an absolute [b] replaces [a]; otherwise [b]
    is added after a separator, unless [a] is empty or already ends with
    one. *)
Definition path_join (a b : string) : string :=
  if startswith b "/" then b
  else if String.eqb a EmptyString || endswith a "/" then String.append a b
  else String.append a (String.append "/" b).

(** [posixpath.basename(p)]: [p[p.rfind('/') + 1:]]. *)
Definition basename (p : string) : string := rsplit1_last slash p.

(** The components [posixpath.relpath] compares: the non-empty pieces
    between separators, [.] dropped (both paths are taken from the same
    working directory and hold no [..]). *)
Definition components (p : string) : list string :=
  List.filter (fun c => negb (String.eqb c EmptyString) && negb (String.eqb c "."))
         (split slash p).

(** Length of the longest common prefix of two component lists. *)
Fixpoint common_len (xs ys : list string) : nat :=
  match xs, ys with
  | x :: xs', y :: ys' => if String.eqb x y then S (common_len xs' ys') else 0
  | _, _ => 0
  end.

(** [posixpath.relpath(path, start)] *)
Definition relpath (path start : string) : string :=
  let start_list := components start in
  let path_list := components path in
  let i := common_len start_list path_list in
  let rel_list :=
    repeat ".." (List.length start_list - i) ++ skipn i path_list in
  match rel_list with
  | [] => "."
  | _ => join "/" rel_list
  end.


End PyStr.

(* ===================================================================== *)
(** ** Exceptions *)
(* ===================================================================== *)

(** The exceptions that leave the functions of [app.py]. *)
Inductive exn : Type :=
| SyntaxError      (* [ast.parse] rejects the text *)
| TypeError        (* [json.dumps] meets an object it cannot encode *)
| GitCommandError  (* [Repo.clone_from] fails *)
| RecursionError   (* the call stack is exhausted *)
| ValueError.      (* [urlparse] rejects the locator *)

Inductive result (A : Type) : Type :=
| Ok (a : A)
| Raise (e : exn).
Arguments Ok {A} a.
Arguments Raise {A} e.

Definition bind {A B : Type} (r : result A) (k : A -> result B) : result B :=
  match r with
  | Ok a => k a
  | Raise e => Raise e
  end.

Notation "'attempt' x <- r ; k" := (bind r (fun x => k))
  (at level 10, x name, r at level 100, k at level 200).

(* ===================================================================== *)
(** ** Python values and their JSON text *)
(* ===================================================================== *)

(** [ast.Load()], [ast.Store()], [ast.Del()]: the [ctx] of a [Name]. *)
Inductive expr_context : Type := Load | Store | Del.

Module PyValue.

(** What the analyzer stores.  A [dict] keeps its keys in insertion
    order, as Python's does, so it is a list of entries; strings are
    sequences of code points below 256 and numbers are integers (a
    literal of another numeric type is outside the model). *)
Unset Elimination Schemes.
Inductive value : Type :=
| VNone
| VInt (n : Z)
| VStr (s : string)
| VCtx (c : expr_context)
| VList (items : list value)
| VDict (entries : list (string * value)).
Set Elimination Schemes.

Abbreviation dict := (list (string * value)).

(** Structural induction with the hypothesis for every item of a list
    and every value of a dictionary. *)
Section Induction.
Variable P : value -> Prop.
Hypothesis P_None : P VNone.
Hypothesis P_Int : forall n, P (VInt n).
Hypothesis P_Str : forall s, P (VStr s).
Hypothesis P_Ctx : forall c, P (VCtx c).
Hypothesis P_List : forall items, Forall P items -> P (VList items).
Hypothesis P_Dict :
  forall entries, Forall (fun e => P (snd e)) entries -> P (VDict entries).

Definition value_ind : forall v, P v :=
  fix F (v : value) : P v :=
    match v with
    | VNone => P_None
    | VInt n => P_Int n
    | VStr s => P_Str s
    | VCtx c => P_Ctx c
    | VList items =>
        P_List items
          ((fix Fs (l : list value) : Forall P l :=
              match l with
              | [] => @List.Forall_nil _ _
              | x :: r => @List.Forall_cons _ _ x r (F x) (Fs r)
              end) items)
    | VDict entries =>
        P_Dict entries
          ((fix Fs (l : list (string * value))
              : Forall (fun e => P (snd e)) l :=
              match l with
              | [] => @List.Forall_nil _ _
              | e :: r => @List.Forall_cons _ _ e r (F (snd e)) (Fs r)
              end) entries)
    end.
End Induction.

(** [k in d], [d.get(k)] *)
Fixpoint dict_get (d : dict) (k : string) : option value :=
  match d with
  | [] => None
  | (k', v) :: r => if String.eqb k' k then Some v else dict_get r k
  end.

Definition dict_keys (d : dict) : list string := map fst d.

(** [d[k] = v]: a key already stored keeps its place, a new key goes
    last. *)
Fixpoint dict_set (d : dict) (k : string) (v : value) : dict :=
  match d with
  | [] => [(k, v)]
  | (k', v') :: r =>
      if String.eqb k' k then (k', v) :: r else (k', v') :: dict_set r k v
  end.

(** [d[k]] on a [defaultdict(list)]: a missing key is stored with a
    fresh empty list before it is read. *)
Definition defaultdict_touch (d : dict) (k : string) : dict :=
  match dict_get d k with
  | Some _ => d
  | None => dict_set d k (VList [])
  end.

Definition defaultdict_getitem (d : dict) (k : string) : value :=
  match dict_get d k with
  | Some v => v
  | None => VList []
  end.

(** [l.append(x)].  On a value that is no list Python raises
    [AttributeError]; the analyzer only appends to the keys [imports],
    [classes], [functions] and [statements], which it never binds to
    anything but a list, and the model leaves other values as they are. *)
Definition list_append (l x : value) : value :=
  match l with
  | VList items => VList (items ++ [x])
  | _ => l
  end.

(** [d[k].append(x)] on a [defaultdict(list)]. *)
Definition dict_append (d : dict) (k : string) (x : value) : dict :=
  let d' := defaultdict_touch d k in
  dict_set d' k (list_append (defaultdict_getitem d' k) x).

(** *** [json.dumps(data, separators=(',', ':'))] *)

Definition hex_digit (n : nat) : ascii :=
  match n with
  | 0 => "0" | 1 => "1" | 2 => "2" | 3 => "3" | 4 => "4" | 5 => "5"
  | 6 => "6" | 7 => "7" | 8 => "8" | 9 => "9" | 10 => "a" | 11 => "b"
  | 12 => "c" | 13 => "d" | 14 => "e" | _ => "f"
  end%char.

(** [json.encoder.py_encode_basestring_ascii] on one character: the
    quote and the backslash are escaped, the usual control characters
    have their short form, printable ASCII stands for itself and
    everything else becomes a [\uXXXX] escape. *)
Definition backslash : ascii := ascii_of_nat 92.
Definition dquote : ascii := ascii_of_nat 34.

Definition short_escape (c : ascii) : string :=
  String backslash (String c EmptyString).

Definition escape_char (c : ascii) : string :=
  let n := nat_of_ascii c in
  if (n =? 34)%nat then short_escape dquote
  else if (n =? 92)%nat then short_escape backslash
  else if (n =? 10)%nat then short_escape "n"
  else if (n =? 13)%nat then short_escape "r"
  else if (n =? 9)%nat then short_escape "t"
  else if (n =? 8)%nat then short_escape "b"
  else if (n =? 12)%nat then short_escape "f"
  else if ((32 <=? n) && (n <=? 126))%nat then String c EmptyString
  else String backslash (String "u" (String "0" (String "0"
         (String (hex_digit (n / 16)) (String (hex_digit (n mod 16))
            EmptyString))))).

Fixpoint escape (s : string) : string :=
  match s with
  | EmptyString => EmptyString
  | String c r => String.append (escape_char c) (escape r)
  end.

Definition quote : string := String dquote EmptyString.

Definition encode_str (s : string) : string :=
  String.append quote (String.append (escape s) quote).

Definition encode_int (n : Z) : string := NilEmpty.string_of_int (Z.to_int n).

(** The encoder proper.  Items are separated by [","] and a key from its
    value by [":"], the two separators the call passes; an object that
    is neither a container, a string, a number nor [None] (here: the
    [ctx] object of a [Name]) raises [TypeError]. *)
Fixpoint dumps (data : value) : result string :=
  match data with
  | VNone => Ok "null"
  | VInt n => Ok (encode_int n)
  | VStr s => Ok (encode_str s)
  | VCtx _ => Raise TypeError
  | VList items =>
      attempt chunks <- (fix dumps_items (l : list value) : result (list string) :=
                   match l with
                   | [] => Ok []
                   | x :: r =>
                       attempt s <- dumps x; attempt ss <- dumps_items r; Ok (s :: ss)
                   end) items;
      Ok (String.append "[" (String.append (PyStr.join "," chunks) "]"))
  | VDict entries =>
      attempt chunks <- (fix dumps_entries (l : dict) : result (list string) :=
                   match l with
                   | [] => Ok []
                   | (k, v) :: r =>
                       attempt s <- dumps v; attempt ss <- dumps_entries r;
                       Ok (String.append (encode_str k) (String.append ":" s) :: ss)
                   end) entries;
      Ok (String.append "{" (String.append (PyStr.join "," chunks) "}"))
  end.

(** The two loops of the encoder, on their own. *)
Fixpoint dumps_items (l : list value) : result (list string) :=
  match l with
  | [] => Ok []
  | x :: r => attempt s <- dumps x; attempt ss <- dumps_items r; Ok (s :: ss)
  end.

Fixpoint dumps_entries (l : dict) : result (list string) :=
  match l with
  | [] => Ok []
  | (k, v) :: r =>
      attempt s <- dumps v; attempt ss <- dumps_entries r;
      Ok (String.append (encode_str k) (String.append ":" s) :: ss)
  end.

(** [to_json] *)
Definition to_json (data : value) : result string := dumps data.

End PyValue.

(* ===================================================================== *)
(** ** The syntax tree *)
(* ===================================================================== *)

Module PyAst.

(** [ast.alias]: one imported name. *)
Record alias : Type := { alias_name : string; alias_asname : option string }.

(** [ast.arguments], by parameter names: [args] holds the positional
    parameters, the only field the analyzer reads. *)
Record arguments : Type :=
  { arguments_args : list string;
    arguments_vararg : option string;
    arguments_kwonlyargs : list string;
    arguments_kwarg : option string }.

(** The nodes of [ast], as the module is written against them: number
    and string literals are [Num] and [Str] nodes.  Node kinds with no
    constructor of their own are [Node kind children], [children] being
    their child nodes in field order.  A keyword argument is the pair
    of its name ([None] for [**kw]) and its value. *)
Unset Elimination Schemes.
Inductive ast : Type :=
| Module (body : list ast)
| Import (names : list alias)
| ImportFrom (module : option string) (names : list alias) (level : Z)
| ClassDef (name : string) (bases : list ast) (body : list ast)
           (decorator_list : list ast)
| FunctionDef (name : string) (args : arguments) (body : list ast)
              (decorator_list : list ast)
| Expr (value : ast)
| Assign (targets : list ast) (value : ast)
| If (test : ast) (body : list ast) (orelse : list ast)
| While (test : ast) (body : list ast) (orelse : list ast)
| For (target : ast) (iter : ast) (body : list ast) (orelse : list ast)
| Pass
| Call (func : ast) (args : list ast) (keywords : list (option string * ast))
| Name (id : string) (ctx : expr_context)
| Attribute (value : ast) (attr : string) (ctx : expr_context)
| Num (n : Z)
| Str (s : string)
| BinOp (left : ast) (right : ast)
| Node (kind : string) (children : list ast).
Set Elimination Schemes.

(** The kinds [Analyzer] has a [visit_] method for. *)
Definition recognized (n : ast) : bool :=
  match n with
  | Import _ | ImportFrom _ _ _ | ClassDef _ _ _ _ | FunctionDef _ _ _ _
  | Call _ _ _ | Name _ _ => true
  | _ => false
  end.

(** [ast.iter_child_nodes]: the direct child nodes, in field order.
    ([alias], [arguments] and [ctx] nodes have no child the analyzer
    has a method for and are left out.) *)
Definition iter_child_nodes (n : ast) : list ast :=
  match n with
  | Module body => body
  | Import _ | ImportFrom _ _ _ => []
  | ClassDef _ bases body decorator_list => bases ++ body ++ decorator_list
  | FunctionDef _ _ body decorator_list => body ++ decorator_list
  | Expr value => [value]
  | Assign targets value => targets ++ [value]
  | If test body orelse | While test body orelse => test :: body ++ orelse
  | For target iter body orelse => target :: iter :: body ++ orelse
  | Pass => []
  | Call func args keywords => func :: args ++ map snd keywords
  | Name _ _ => []
  | Attribute value _ _ => [value]
  | Num _ | Str _ => []
  | BinOp lhs rhs => [lhs; rhs]
  | Node _ children => children
  end.

(** Structural induction with the hypothesis for every child node. *)
Section Induction.
Variable P : ast -> Prop.
Hypothesis step : forall n, Forall P (iter_child_nodes n) -> P n.

Definition ast_ind_children : forall n, P n :=
  fix F (n : ast) : P n :=
    let Fs := fix Fs (l : list ast) : Forall P l :=
                match l with
                | [] => @List.Forall_nil _ P
                | x :: r => @List.Forall_cons _ P x _ (F x) (Fs r)
                end in
    let Fk := fix Fk (l : list (option string * ast))
                : Forall P (map snd l) :=
                match l with
                | [] => @List.Forall_nil _ P
                | (_, x) :: r => @List.Forall_cons _ P x _ (F x) (Fk r)
                end in
    step n
      match n return Forall P (iter_child_nodes n) with
      | Module body => Fs body
      | Import _ | ImportFrom _ _ _ => @List.Forall_nil _ P
      | ClassDef _ bases body decorator_list =>
          proj2 (Forall_app P _ _)
            (conj (Fs bases)
               (proj2 (Forall_app P _ _) (conj (Fs body) (Fs decorator_list))))
      | FunctionDef _ _ body decorator_list =>
          proj2 (Forall_app P _ _) (conj (Fs body) (Fs decorator_list))
      | Expr value => @List.Forall_cons _ P value _ (F value) (@List.Forall_nil _ P)
      | Assign targets value =>
          proj2 (Forall_app P _ _)
            (conj (Fs targets) (@List.Forall_cons _ P value _ (F value) (@List.Forall_nil _ P)))
      | If test body orelse | While test body orelse =>
          @List.Forall_cons _ P test _ (F test)
            (proj2 (Forall_app P _ _) (conj (Fs body) (Fs orelse)))
      | For target iter body orelse =>
          @List.Forall_cons _ P target _ (F target)
            (@List.Forall_cons _ P iter _ (F iter)
               (proj2 (Forall_app P _ _) (conj (Fs body) (Fs orelse))))
      | Pass => @List.Forall_nil _ P
      | Call func args keywords =>
          @List.Forall_cons _ P func _ (F func)
            (proj2 (Forall_app P _ _) (conj (Fs args) (Fk keywords)))
      | Name _ _ => @List.Forall_nil _ P
      | Attribute value _ _ => @List.Forall_cons _ P value _ (F value) (@List.Forall_nil _ P)
      | Num _ | Str _ => @List.Forall_nil _ P
      | BinOp lhs rhs =>
          @List.Forall_cons _ P lhs _ (F lhs) (@List.Forall_cons _ P rhs _ (F rhs) (@List.Forall_nil _ P))
      | Node _ children => Fs children
      end.
End Induction.

End PyAst.

(* ===================================================================== *)
(** ** [class Analyzer(ast.NodeVisitor)] and [parse_node] *)
(* ===================================================================== *)

Module Analyzer.
Import PyValue PyAst.

(** [NodeType]: the four report fields, in declaration order. *)
Definition IMPORTS : string := "imports".
Definition CLASSES : string := "classes".
Definition FUNCTIONS : string := "functions".
Definition STATEMENTS : string := "statements".
Definition NodeType : list string := [IMPORTS; CLASSES; FUNCTIONS; STATEMENTS].

(** The loop over [ast_node.bases] in [visit_ClassDef]: what one base
    adds to [node['bases']]. *)
Definition base_entry (base : ast) : list value :=
  match base with
  | Name id _ => [VStr id]
  | Attribute _ attr _ => [VStr attr]
  | _ => []
  end.

(** The two branches on [func] in [visit_Call]: the [func] key is set
    for a [Name] or an [Attribute] and not at all otherwise. *)
Definition set_func (node : dict) (func : ast) : dict :=
  match func with
  | Name id _ => dict_set node "func" (VStr id)
  | Attribute _ attr _ => dict_set node "func" (VStr attr)
  | _ => node
  end.

(** [keyword.arg] of each keyword ([None] for [**kw]). *)
Definition keyword_arg (kw : option string * ast) : value :=
  match fst kw with
  | Some name => VStr name
  | None => VNone
  end.

(** [Analyzer(node).visit(ast_node); return analyzer.node], the state
    [self.node] passed explicitly.  [NodeVisitor.visit] calls
    [visit_<kind>] where the class defines one and
    [NodeVisitor.generic_visit] otherwise, which visits every child node
    in field order with the same [self.node].  [parse_node(child, node)]
    makes a new [Analyzer] on the dictionary it is given, so it is a
    call of [visit] on that dictionary. *)
Fixpoint visit (ast_node : ast) (node : dict) {struct ast_node} : dict :=
  let visit_all := fun (l : list ast) (nd : dict) =>
    fold_left (fun acc child => visit child acc) l nd in
  match ast_node with
  (* visit_Import, visit_ImportFrom *)
  | Import names | ImportFrom _ names _ =>
      fold_left (fun acc a => dict_append acc IMPORTS (VStr (alias_name a)))
                names node
  (* visit_ClassDef *)
  | ClassDef name bases body _ =>
      let n := dict_set [] "name" (VStr name) in
      let n := dict_set n "bases" (VList (flat_map base_entry bases)) in
      let n := visit_all body n in
      dict_append node CLASSES (VDict n)
  (* visit_FunctionDef *)
  | FunctionDef name args body _ =>
      let n := dict_set [] "name" (VStr name) in
      let n := dict_set n "args" (VList (map VStr (arguments_args args))) in
      let n := visit_all body n in
      dict_append node FUNCTIONS (VDict n)
  (* visit_Call *)
  | Call func args keywords =>
      let n := dict_set [] "type" (VStr "function_call") in
      let n := set_func n func in
      let n := dict_set n "args"
                 (VList (flat_map
                           (fun arg =>
                              match arg with
                              | Name id _ => [VStr id]
                              | Call _ _ _ => [VDict (visit arg [])]
                              | Num n => [VInt n]
                              | Str s => [VStr s]
                              | _ => []
                              end) args)) in
      let n := dict_set n "keywords" (VList (map keyword_arg keywords)) in
      dict_append node STATEMENTS (VDict n)
  (* visit_Name *)
  | Name id ctx =>
      let n := dict_set [] "name" (VStr id) in
      let n := dict_set n "type" (VCtx ctx) in
      dict_append node "statements" (VDict n)
  (* generic_visit *)
  | Module body => visit_all body node
  | Expr value => visit value node
  | Assign targets value => visit value (visit_all targets node)
  | If test body orelse | While test body orelse =>
      visit_all orelse (visit_all body (visit test node))
  | For target iter body orelse =>
      visit_all orelse (visit_all body (visit iter (visit target node)))
  | Attribute value _ _ => visit value node
  | BinOp lhs rhs => visit rhs (visit lhs node)
  | Node _ children => visit_all children node
  | Pass | Num _ | Str _ => node
  end.

(** [parse_node] *)
Definition parse_node (ast_node : ast) (node : dict) : dict :=
  visit ast_node node.

(** [generic_visit] on a list of child nodes. *)
Definition visit_all (l : list ast) (node : dict) : dict :=
  fold_left (fun acc child => visit child acc) l node.

(** What one argument of a call adds to the call's [args]. *)
Definition arg_entry (arg : ast) : list value :=
  match arg with
  | Name id _ => [VStr id]
  | Call _ _ _ => [VDict (visit arg [])]
  | Num n => [VInt n]
  | Str s => [VStr s]
  | _ => []
  end.

(** The dictionary [visit_Call] builds for one call. *)
Definition call_node (func : ast) (args : list ast)
           (keywords : list (option string * ast)) : dict :=
  let n := dict_set [] "type" (VStr "function_call") in
  let n := set_func n func in
  let n := dict_set n "args" (VList (flat_map arg_entry args)) in
  dict_set n "keywords" (VList (map keyword_arg keywords)).

End Analyzer.

(* ===================================================================== *)
(** ** The walker and the dispatcher *)
(* ===================================================================== *)

Module Walker.
Import PyStr PyValue PyAst Analyzer.

(** What a path can name: a regular file with its text, a directory
    with its entries in the order the system enumerates them, or
    something that is neither (a socket, a dangling link). *)
Unset Elimination Schemes.
Inductive fsnode : Type :=
| File (source : string)
| Dir (children : list (string * fsnode))
| Special.
Set Elimination Schemes.

(** Structural induction with the hypothesis for every entry of a
    directory. *)
Section Induction.
Variable P : fsnode -> Prop.
Hypothesis P_File : forall source, P (File source).
Hypothesis P_Special : P Special.
Hypothesis P_Dir :
  forall children, Forall (fun e => P (snd e)) children -> P (Dir children).

End Induction.

(** The file system: what each path names.  A locator is resolved once,
    by the dispatcher; the walker then works on the tree the path
    names, whose entries stand for what [glob] and [os.path] report
    below it. *)
Abbreviation world := (gmap string fsnode).

Definition isfile (w : world) (path : string) : bool :=
  match w !! path with
  | Some (File _) => true
  | _ => false
  end.

Definition isdir (w : world) (path : string) : bool :=
  match w !! path with
  | Some (Dir _) => true
  | _ => false
  end.

(** A [for] loop whose body can raise. *)
Fixpoint for_each {A S : Type} (body : S -> A -> result S)
         (l : list A) (s : S) : result S :=
  match l with
  | [] => Ok s
  | x :: r => attempt s' <- body s x; for_each body r s'
  end.

Section Walker.

(** [ast.parse], on the text read from a file: the tree, or [None]
    where reading or parsing raises; the model names what is raised
    then [SyntaxError]. *)
Variable ast_parse : string -> option ast.

(** [files_to_ignore], of [ignore.py]. *)
Variable files_to_ignore : list string.

(** [urlparse(s).scheme], for the locators [urlparse] reads; its
    failure is in [Locator.parse_source_file]. *)
Variable urlparse_scheme : string -> string.

(** [Repo.clone_from(url, dir)]: the entries it leaves in [dir], or
    the exception it raises. *)
Variable clone_from : string -> result (list (string * fsnode)).

(** The name [tempfile.TemporaryDirectory()] picks. *)
Variable mkdtemp : world -> string.

(** [process_regular_file], on the text [open(file_name).read()]
    returns. *)
Definition process_regular_file (file_name source : string) : result value :=
  if negb (endswith file_name ".py") then Ok VNone
  else match ast_parse source with
       | Some tree => Ok (VDict (parse_node tree []))
       | None => Raise SyntaxError
       end.

(** [simple_name not in files_to_ignore] *)
Definition ignored (simple_name : string) : bool :=
  existsb (String.eqb simple_name) files_to_ignore.

(** One turn of the loop of [process_directory], on the entry [child]
    of the directory [real_name]; [recurse] is the recursive call.
    [file] is the path [glob.iglob(os.path.join(real_name, '*'))] yields
    for the entry when [real_name] holds no wildcard character and does
    not end with a slash.
    [glob] does not match a name that starts with a dot against [*].
    Subscripting the [None] that [process_regular_file] returns for
    another extension would raise [TypeError]; the test on the
    extension excludes it. *)
Definition process_entry
           (recurse : string -> fsnode -> result (list value))
           (root_name real_name : string)
           (package_nodes : list value) (child : string * fsnode)
  : result (list value) :=
  if startswith (fst child) "." then Ok package_nodes
  else
    let file := path_join real_name (fst child) in
    let simple_name := relpath file root_name in
    match snd child with
    | File source =>
        if endswith file ".py" then
          attempt processed_node <- process_regular_file file source;
          match processed_node with
          | VDict d =>
              let d := dict_set d "short_name" (VStr (basename file)) in
              let d := dict_set d "name" (VStr simple_name) in
              let d := dict_set d "full_name" (VStr file) in
              Ok (package_nodes ++ [VDict d])
          | _ => Raise TypeError
          end
        else Ok package_nodes
    | Dir _ =>
        if negb (ignored simple_name) then
          attempt child_nodes <- recurse file (snd child);
          match child_nodes with
          | [] => Ok package_nodes
          | _ => Ok (package_nodes ++ [VDict [(simple_name, VList child_nodes)]])
          end
        else Ok package_nodes
    | Special => Ok package_nodes
    end.

(** [process_directory(root_name, real_name)], [dir] being what
    [real_name] names. *)
Fixpoint process_directory (root_name real_name : string) (dir : fsnode)
         {struct dir} : result (list value) :=
  match dir with
  | Dir children =>
      for_each
        (process_entry (fun file d => process_directory root_name file d)
                       root_name real_name)
        children []
  | _ => Ok []
  end.

(** [urlparse(file_name).scheme in ('http', 'https')] *)
Definition is_url (file_name : string) : bool :=
  existsb (String.eqb (urlparse_scheme file_name)) ["http"; "https"].

(** [if not project_name: project_name = os.path.basename(file_name)] *)
Definition project_key (project_name : option string) (file_name : string)
  : string :=
  match project_name with
  | Some (String c r) => String c r
  | _ => basename file_name
  end.

(** [process_url]; [dispatch] is its call of [parse_source_file].
    The [with] block makes the directory, and removes it however the
    block is left. *)
Definition process_url
           (dispatch : string -> option string -> world -> result value * world)
           (git_url : string) (w : world) : result value * world :=
  let temp_dirname := mkdtemp w in
  let w := <[temp_dirname := Dir []]> w in
  let '(r, w) :=
    match clone_from git_url with
    | Raise e => (Raise e, w)
    | Ok tree =>
        dispatch temp_dirname (Some (rsplit1_last slash git_url))
                 (<[temp_dirname := Dir tree]> w)
    end in
  (r, delete temp_dirname w).

(** [parse_source_file]; [fuel] bounds the depth of the calls between
    it and [process_url]. *)
Fixpoint parse_source_file (fuel : nat) (file_name : string)
         (project_name : option string) (w : world)
  : result value * world :=
  match fuel with
  | 0 => (Raise RecursionError, w)
  | S fuel =>
      if is_url file_name then
        process_url (parse_source_file fuel) file_name w
      else
        match w !! file_name with
        | Some (File source) => (process_regular_file file_name source, w)
        | Some (Dir children) =>
            let project_name := project_key project_name file_name in
            (attempt nodes <-
               process_directory file_name file_name (Dir children);
             Ok (VDict (dict_set [] project_name (VList nodes))), w)
        | _ => (Ok VNone, w)
        end
  end.

End Walker.

End Walker.

(* ===================================================================== *)
(** ** Vocabulary of the properties *)
(* ===================================================================== *)

Module Props.
Import PyStr PyValue PyAst Analyzer Walker.

(** How deep calls are nested as arguments of calls: [f(g(h()))] has
    depth 3, [f(x, 1)] depth 1, anything that is no call depth 0. *)
Fixpoint call_depth (n : ast) : nat :=
  match n with
  | Call _ args _ => S (list_max (map call_depth args))
  | _ => 0
  end.

(** [entries] is a dictionary [visit_Call] built. *)
Definition is_call_node (entries : dict) : bool :=
  match dict_get entries "type" with
  | Some (VStr t) => String.eqb t "function_call"
  | _ => false
  end.

(** How deep call dictionaries are nested inside a value. *)
Fixpoint fragment_depth (v : value) : nat :=
  match v with
  | VList items => list_max (map fragment_depth items)
  | VDict entries =>
      (if is_call_node entries then 1 else 0)
      + list_max (map (fun e => fragment_depth (snd e)) entries)
  | _ => 0
  end.

(** An argument form [visit_Call] has no branch for. *)
Definition other_argument (arg : ast) : bool :=
  match arg with
  | Name _ _ | Call _ _ _ | Num _ | Str _ => false
  | _ => true
  end.

(** The record [visit_Name] appends. *)
Definition name_node (id : string) (ctx : expr_context) : dict :=
  [("name", VStr id); ("type", VCtx ctx)].

(** The URL's last path segment: the last of the pieces between
    slashes. *)
Definition final_segment (url : string) : string :=
  List.last (split slash url) EmptyString.








(** The tree of the source text
<<
import os
class A(Base):
    def f(self, x):
        bar(1, 'a')
>>
    as [ast.parse] builds it. *)
Definition scenario_tree : ast :=
  Module
    [ Import [ {| alias_name := "os"; alias_asname := None |} ];
      ClassDef "A" [Name "Base" Load]
        [ FunctionDef "f"
            {| arguments_args := ["self"; "x"]; arguments_vararg := None;
               arguments_kwonlyargs := []; arguments_kwarg := None |}
            [ Expr (Call (Name "bar" Load) [Num 1; Str "a"] []) ]
            [] ]
        [] ].

(** A function definition followed by an import:
<<
def f():
    pass
import os
>> *)
Definition function_then_import : ast :=
  Module
    [ FunctionDef "f"
        {| arguments_args := []; arguments_vararg := None;
           arguments_kwonlyargs := []; arguments_kwarg := None |}
        [Pass] [];
      Import [ {| alias_name := "os"; alias_asname := None |} ] ].


Definition sample_parse (source : string) : option ast :=
  if String.eqb source EmptyString then Some (Module []) else None.


(** A scheme reader that knows the two network schemes, and a clone
    that fetches one repository. *)
Definition sample_scheme (locator : string) : string :=
  if String.prefix "https://" locator then "https"
  else if String.prefix "http://" locator then "http"
  else EmptyString.

Definition sample_clone (git_url : string) : result (list (string * fsnode)) :=
  if String.eqb git_url "https://host/user/repo"
  then Ok [("a.py", File EmptyString)]
  else Raise GitCommandError.

(** A name no path of the file system has. *)
Definition sample_mkdtemp (w : world) : string := fresh (dom w).

(** A URL parser that rejects one locator, as [urlparse] rejects an
    unbalanced bracket after the double slash, and finds the two network
    schemes. *)
Definition sample_urlparse (locator : string) : result string :=
  if String.eqb locator "ftp://[" then Raise ValueError
  else Ok (sample_scheme locator).


End Props.

(* ===================================================================== *)
(** ** The dispatcher with the failure of [urlparse], and the handler *)
(* ===================================================================== *)

Module Locator.
Import PyValue PyAst Walker.

Section Locator.
Variable ast_parse : string -> option ast.
Variable files_to_ignore : list string.

(** [urlparse(s)]: the scheme of the result, or the exception it raises
    ([ValueError] for a bracket without its pair after the double
    slash). *)
Variable urlparse : string -> result string.

Variable clone_from : string -> result (list (string * fsnode)).
Variable mkdtemp : world -> string.

(** [scheme in ('http', 'https')] *)
Definition network_scheme (scheme : string) : bool :=
  existsb (String.eqb scheme) ["http"; "https"].

(** [parse_source_file], its first statement included: [urlparse] is
    called on every locator, before any test, and what it raises leaves
    the function. *)
Fixpoint parse_source_file (fuel : nat) (file_name : string)
         (project_name : option string) (w : world)
  : result value * world :=
  match fuel with
  | 0 => (Raise RecursionError, w)
  | S fuel =>
      match urlparse file_name with
      | Raise e => (Raise e, w)
      | Ok scheme =>
          if network_scheme scheme then
            process_url clone_from mkdtemp (parse_source_file fuel) file_name w
          else
            match w !! file_name with
            | Some (File source) =>
                (process_regular_file ast_parse file_name source, w)
            | Some (Dir children) =>
                let project_name := project_key project_name file_name in
                (attempt nodes <-
                   process_directory ast_parse files_to_ignore
                     file_name file_name (Dir children);
                 Ok (VDict (dict_set [] project_name (VList nodes))), w)
            | _ => (Ok VNone, w)
            end
      end
  end.

(** [parser], the handler of [POST /parse]. *)
Definition parser (fuel : nat) (fileName : string) (w : world)
  : result string * world :=
  let '(results, w) := parse_source_file fuel fileName None w in
  (attempt data <- results; to_json data, w).

End Locator.
End Locator.

(* ===================================================================== *)
(** ** Vocabulary of the reports *)
(* ===================================================================== *)

Module Reports.
Import PyStr PyValue PyAst Analyzer Walker.

(** The sequence a report holds under [k]: empty when [k] is not
    stored. *)
Definition field_items (d : dict) (k : string) : list value :=
  match dict_get d k with
  | Some (VList l) => l
  | _ => []
  end.

(** [k] is not stored in [d], or is bound to a list. *)
Definition list_or_absent (d : dict) (k : string) : bool :=
  match dict_get d k with
  | Some (VList _) | None => true
  | Some _ => false
  end.

(** The four report fields of [d] can be appended to. *)
Definition report_ok (d : dict) : bool := forallb (list_or_absent d) NodeType.

(** The names the import statements of [n] bring in, in source order,
    those inside a class, a function or a call left out. *)
Fixpoint imports_of (n : ast) : list string :=
  match n with
  | Import names | ImportFrom _ names _ => map alias_name names
  | ClassDef _ _ _ _ | FunctionDef _ _ _ _ | Call _ _ _ | Name _ _ => []
  | Module body => flat_map imports_of body
  | Expr value => imports_of value
  | Assign targets value => flat_map imports_of targets ++ imports_of value
  | If test body orelse | While test body orelse =>
      imports_of test ++ flat_map imports_of body ++ flat_map imports_of orelse
  | For target iter body orelse =>
      imports_of target ++ imports_of iter ++ flat_map imports_of body
      ++ flat_map imports_of orelse
  | Attribute value _ _ => imports_of value
  | BinOp lhs rhs => imports_of lhs ++ imports_of rhs
  | Node _ children => flat_map imports_of children
  | Pass | Num _ | Str _ => []
  end.

(** No [ctx] object is stored in [v]: [json.dumps] has no encoding for
    one. *)
Fixpoint ctx_free (v : value) : bool :=
  match v with
  | VCtx _ => false
  | VList items => forallb ctx_free items
  | VDict entries => forallb (fun e => ctx_free (snd e)) entries
  | _ => true
  end.

(** The analysis of [n] reaches [visit_Name]: a [Name] node lies in [n]
    where the traversal goes (not in the callee, the keyword values or
    the arguments of a call other than nested calls, nor in the bases or
    decorators of a definition). *)
Fixpoint visits_name (n : ast) : bool :=
  match n with
  | Name _ _ => true
  | Import _ | ImportFrom _ _ _ => false
  | ClassDef _ _ body _ | FunctionDef _ _ body _ => existsb visits_name body
  | Call _ args _ =>
      existsb (fun arg => match arg with
                          | Call _ _ _ => visits_name arg
                          | _ => false
                          end) args
  | Module body => existsb visits_name body
  | Expr value => visits_name value
  | Assign targets value => existsb visits_name targets || visits_name value
  | If test body orelse | While test body orelse =>
      visits_name test || existsb visits_name body
      || existsb visits_name orelse
  | For target iter body orelse =>
      visits_name target || visits_name iter || existsb visits_name body
      || existsb visits_name orelse
  | Attribute value _ _ => visits_name value
  | BinOp lhs rhs => visits_name lhs || visits_name rhs
  | Node _ children => existsb visits_name children
  | Pass | Num _ | Str _ => false
  end.

(** An update of a report that only appends: it keeps what each field
    holds and puts after it what it stores in an empty report. *)
Definition accumulating (f : dict -> dict) : Prop :=
  forall d, report_ok d = true ->
            report_ok (f d) = true
            /\ forall k, In k NodeType ->
                         field_items (f d) k
                         = field_items d k ++ field_items (f []) k.

(** The callee of a call is a name or an attribute. *)
Definition named_callee (func : ast) : bool :=
  match func with
  | Name _ _ | Attribute _ _ _ => true
  | _ => false
  end.








End Reports.

(* ===================================================================== *)
(** ** Dictionaries *)
(* ===================================================================== *)

Section DictFacts.
Import PyValue.

Lemma dict_get_set_eq (d : dict) k v : dict_get (dict_set d k v) k = Some v.
Proof.
  induction d as [|[k' v'] d IH]; simpl.
  - now rewrite String.eqb_refl.
  - destruct (String.eqb k' k) eqn:E; simpl; rewrite E; auto.
Qed.

Lemma dict_get_set_ne (d : dict) k k' v :
  k <> k' -> dict_get (dict_set d k v) k' = dict_get d k'.
Proof.
  intros Hne. induction d as [|[k0 v0] d IH]; simpl.
  - destruct (String.eqb k k') eqn:E; auto.
    apply String.eqb_eq in E. contradiction.
  - destruct (String.eqb k0 k) eqn:E; simpl.
    + apply String.eqb_eq in E. subst k0.
      destruct (String.eqb k k') eqn:E'; auto.
      apply String.eqb_eq in E'. contradiction.
    + now rewrite IH.
Qed.





(** After [d[k].append(x)], [d[k]] is the old list with [x] at its
    end. *)
Lemma dict_get_append_eq (d : dict) k x :
  dict_get (dict_append d k x) k
  = Some (list_append (defaultdict_getitem d k) x).
Proof.
  unfold dict_append, defaultdict_touch, defaultdict_getitem.
  destruct (dict_get d k) as [v0|] eqn:G.
  - now rewrite G, dict_get_set_eq.
  - now rewrite !dict_get_set_eq.
Qed.

Lemma dict_get_append_ne (d : dict) k k' x :
  k <> k' -> dict_get (dict_append d k x) k' = dict_get d k'.
Proof.
  intros Hne. unfold dict_append, defaultdict_touch.
  destruct (dict_get d k) as [v0|] eqn:G.
  - now rewrite dict_get_set_ne.
  - now rewrite !dict_get_set_ne.
Qed.

End DictFacts.


(* ===================================================================== *)
(** ** The analyzer *)
(* ===================================================================== *)

Section AnalyzerFacts.
Import PyValue PyAst Analyzer Props.

Lemma visit_all_app l1 l2 d :
  visit_all (l1 ++ l2) d = visit_all l2 (visit_all l1 d).
Proof. unfold visit_all. apply fold_left_app. Qed.

Lemma visit_Call_eq func args keywords d :
  visit (Call func args keywords) d
  = dict_append d STATEMENTS (VDict (call_node func args keywords)).
Proof. reflexivity. Qed.

Lemma dict_append_fresh k x : dict_append [] k x = [(k, VList [x])].
Proof.
  unfold dict_append, defaultdict_touch, defaultdict_getitem. simpl.
  now rewrite String.eqb_refl.
Qed.

(** [NodeVisitor.generic_visit], the method that handles a node of a
    kind with no [visit_] method. *)
Lemma generic_visit_eq n d :
  recognized n = false ->
  visit n d = visit_all (iter_child_nodes n) d.
Proof.
  destruct n; simpl; try discriminate; intros _; unfold visit_all;
    rewrite ?fold_left_app; reflexivity.
Qed.

(** What a [visit_] method does to the report: it appends one value to
    one of the four fields, or one name per alias to [imports]. *)
Lemma visit_recognized n d :
  recognized n = true ->
  (exists k x, In k NodeType /\ visit n d = dict_append d k x)
  \/ (exists names,
         visit n d
         = fold_left (fun acc a => dict_append acc IMPORTS (VStr (alias_name a)))
                     names d).
Proof.
  destruct n; try discriminate; intros _;
    try (right; eexists; reflexivity);
    left; do 2 eexists; (split; [|reflexivity]); simpl; auto.
Qed.


(** C8, as amended: a name that is visited (a bare identifier statement
    is an [Expr] holding a [Name]) appends to [statements] a record with
    the identifier under [name] and the [ctx] object of the node under
    [type]; the statements stored before it are kept, in order. *)
Theorem name_statement_appended id ctx d :
  visit (Expr (Name id ctx)) d
  = dict_append d STATEMENTS (VDict [("name", VStr id); ("type", VCtx ctx)])
  /\ visit (Name id ctx) d = visit (Expr (Name id ctx)) d
  /\ dict_get (visit (Expr (Name id ctx)) d) STATEMENTS
     = Some (list_append (defaultdict_getitem d STATEMENTS)
                         (VDict (name_node id ctx)))
  /\ dict_get (name_node id ctx) "name" = Some (VStr id)
  /\ dict_get (name_node id ctx) "type" = Some (VCtx ctx)
  /\ dict_get (name_node id ctx) "context" = None.
Proof.
  repeat split; try reflexivity.
  simpl. apply dict_get_append_eq.
Qed.

(** C8, as stated, fails: the record appended for the statement [x] has
    no field named [context]. *)
Lemma name_statement_has_no_context_field :
  ~ (exists record,
        visit (Expr (Name "x" Load)) [] = [(STATEMENTS, VList [VDict record])]
        /\ dict_get record "context" = Some (VCtx Load)).
Proof.
  intros [record [H1 H2]]. vm_compute in H1.
  injection H1 as <-. vm_compute in H2. discriminate H2.
Qed.

End AnalyzerFacts.

(* ===================================================================== *)
(** ** Calls and their arguments *)
(* ===================================================================== *)

Section CallFacts.
Import PyValue PyAst Analyzer Props.

Lemma call_node_args func args keywords :
  dict_get (call_node func args keywords) "args"
  = Some (VList (flat_map arg_entry args)).
Proof.
  unfold call_node. rewrite dict_get_set_ne by discriminate.
  apply dict_get_set_eq.
Qed.

Lemma call_node_keywords func args keywords :
  dict_get (call_node func args keywords) "keywords"
  = Some (VList (map keyword_arg keywords)).
Proof. unfold call_node. apply dict_get_set_eq. Qed.

Lemma keyword_args_flat keywords :
  list_max (map fragment_depth (map keyword_arg keywords)) = 0.
Proof.
  induction keywords as [|[[name|] v] ks IH]; simpl; auto.
Qed.

(** The depth of a call dictionary is one more than the deepest of its
    arguments. *)
Lemma fragment_depth_call_node func args keywords :
  fragment_depth (VDict (call_node func args keywords))
  = S (list_max (map fragment_depth (flat_map arg_entry args))).
Proof.
  pose proof (keyword_args_flat keywords) as K.
  unfold call_node.
  destruct func; simpl; rewrite K; lia.
Qed.

Lemma fragment_depth_embedded func args keywords :
  fragment_depth (VDict (visit (Call func args keywords) []))
  = fragment_depth (VDict (call_node func args keywords)).
Proof.
  rewrite visit_Call_eq, dict_append_fresh.
  change (fragment_depth (VDict [(STATEMENTS, VList [VDict (call_node func args keywords)])]))
    with (0 + Nat.max (Nat.max (fragment_depth (VDict (call_node func args keywords))) 0) 0).
  lia.
Qed.

Lemma arg_entry_depth a :
  match a with
  | Call func args keywords =>
      fragment_depth (VDict (call_node func args keywords)) = call_depth a
  | _ => True
  end ->
  list_max (map fragment_depth (arg_entry a)) = call_depth a.
Proof.
  destruct a; intros H; try reflexivity.
  unfold arg_entry.
  change (Nat.max (fragment_depth (VDict (visit (Call a args keywords) []))) 0
          = call_depth (Call a args keywords)).
  rewrite fragment_depth_embedded, H. lia.
Qed.

Lemma call_depth_matches n :
  match n with
  | Call func args keywords =>
      fragment_depth (VDict (call_node func args keywords)) = call_depth n
  | _ => True
  end.
Proof.
  induction n as [n IH] using ast_ind_children.
  destruct n; auto.
  simpl in IH. apply Forall_inv_tail in IH.
  apply Forall_app in IH. destruct IH as [IH _].
  rewrite fragment_depth_call_node.
  change (call_depth (Call n args keywords))
    with (S (list_max (map call_depth args))).
  f_equal.
  induction args as [|a args IHargs]; [reflexivity|].
  inversion IH as [|? ? Ha Hargs]; subst.
  change (flat_map arg_entry (a :: args))
    with (arg_entry a ++ flat_map arg_entry args).
  rewrite map_app, list_max_app, (IHargs Hargs), (arg_entry_depth a Ha).
  reflexivity.
Qed.

(** C4: a call appends one dictionary to [statements]; its [args] hold,
    for each argument in order, the identifier of a name, the value of a
    number or string literal, an embedded report for a nested call (as
    deep as the calls are nested in the source) and nothing for any other
    form; its [keywords] hold the keyword names, without their values. *)
Theorem call_arguments_classified func args keywords d :
  visit (Call func args keywords) d
  = dict_append d STATEMENTS (VDict (call_node func args keywords))
  /\ dict_get (call_node func args keywords) "args"
     = Some (VList (flat_map arg_entry args))
  /\ dict_get (call_node func args keywords) "keywords"
     = Some (VList (map keyword_arg keywords))
  /\ (forall id ctx, arg_entry (Name id ctx) = [VStr id])
  /\ (forall n, arg_entry (Num n) = [VInt n])
  /\ (forall s, arg_entry (Str s) = [VStr s])
  /\ (forall f a k,
         arg_entry (Call f a k) = [VDict [(STATEMENTS, VList [VDict (call_node f a k)])]])
  /\ (forall arg, if other_argument arg then arg_entry arg = []
                  else List.length (arg_entry arg) = 1)
  /\ (forall name v, keyword_arg (Some name, v) = VStr name)
  /\ fragment_depth (VDict (call_node func args keywords))
     = call_depth (Call func args keywords).
Proof.
  repeat apply conj; try reflexivity.
  - apply call_node_args.
  - apply call_node_keywords.
  - intros arg. destruct arg; reflexivity.
  - apply (call_depth_matches (Call func args keywords)).
Qed.

End CallFacts.

(* ===================================================================== *)
(** ** The single-file path *)
(* ===================================================================== *)

Section FileFacts.
Import PyStr PyValue PyAst Analyzer Walker Props.

Variable ast_parse : string -> option ast.

Lemma process_regular_file_py file_name source tree :
  endswith file_name ".py" = true ->
  ast_parse source = Some tree ->
  process_regular_file ast_parse file_name source
  = Ok (VDict (parse_node tree [])).
Proof.
  intros Hpy Htree. unfold process_regular_file. now rewrite Hpy, Htree.
Qed.

End FileFacts.

(** C2, as amended: the report of an empty source file stores no field
    at all; each of the four fields reads as an empty sequence through
    the default of the container, and its JSON text is the empty
    object. *)
Theorem empty_file_report ast_parse file_name :
  PyStr.endswith file_name ".py" = true ->
  ast_parse EmptyString = Some (PyAst.Module []) ->
  Walker.process_regular_file ast_parse file_name EmptyString
  = Ok (PyValue.VDict [])
  /\ Forall (fun k => PyValue.dict_get [] k = None) Analyzer.NodeType
  /\ Forall (fun k => PyValue.defaultdict_getitem [] k = PyValue.VList [])
            Analyzer.NodeType
  /\ PyValue.to_json (PyValue.VDict []) = Ok "{}".
Proof.
  intros Hpy Hparse. repeat apply conj.
  - now rewrite (process_regular_file_py ast_parse _ _ _ Hpy Hparse).
  - repeat constructor.
  - repeat constructor.
  - reflexivity.
Qed.

Lemma empty_file_report_witness :
  PyStr.endswith "empty.py" ".py" = true
  /\ Walker.process_regular_file (fun _ => Some (PyAst.Module [])) "empty.py"
       EmptyString
     = Ok (PyValue.VDict []).
Proof.
  split; [reflexivity|].
  apply (empty_file_report (fun _ => Some (PyAst.Module [])) "empty.py");
    reflexivity.
Defined.

(** C2, as stated, fails: for an empty file none of the four fields is
    stored in the report. *)
Lemma empty_file_report_stores_no_field :
  ~ (forall (ast_parse : string -> option PyAst.ast) file_name,
        PyStr.endswith file_name ".py" = true ->
        ast_parse EmptyString = Some (PyAst.Module []) ->
        exists report,
          Walker.process_regular_file ast_parse file_name EmptyString
          = Ok (PyValue.VDict report)
          /\ Forall (fun k => PyValue.dict_get report k
                              = Some (PyValue.VList []))
                    Analyzer.NodeType).
Proof.
  intros H.
  destruct (H (fun _ => Some (PyAst.Module [])) "empty.py" eq_refl eq_refl)
    as [report [Hr Hf]].
  vm_compute in Hr. injection Hr as <-.
  inversion Hf as [|? ? Himports _]. discriminate Himports.
Qed.

Section ScenarioFacts.
Import PyStr PyValue PyAst Analyzer Walker Props.

(** C3, as amended: the report of the scenario stores [imports] and
    [classes] only; the class stores [name], [bases] and [functions], the
    function [name], [args] and [statements], whose one call is tagged
    [function_call].  No other report field is stored at any level: such
    a field reads as an empty sequence through the default only. *)
Theorem scenario_report ast_parse file_name source :
  endswith file_name ".py" = true ->
  ast_parse source = Some scenario_tree ->
  process_regular_file ast_parse file_name source
  = Ok (VDict
          [ (IMPORTS, VList [VStr "os"]);
            (CLASSES,
             VList
               [ VDict
                   [ ("name", VStr "A");
                     ("bases", VList [VStr "Base"]);
                     (FUNCTIONS,
                      VList
                        [ VDict
                            [ ("name", VStr "f");
                              ("args", VList [VStr "self"; VStr "x"]);
                              (STATEMENTS,
                               VList
                                 [ VDict
                                     [ ("type", VStr "function_call");
                                       ("func", VStr "bar");
                                       ("args", VList [VInt 1; VStr "a"]);
                                       ("keywords", VList []) ] ]) ] ]) ] ]) ])
  /\ dict_get (parse_node scenario_tree []) FUNCTIONS = None
  /\ dict_get (parse_node scenario_tree []) STATEMENTS = None
  /\ defaultdict_getitem (parse_node scenario_tree []) FUNCTIONS = VList []
  /\ defaultdict_getitem (parse_node scenario_tree []) STATEMENTS = VList [].
Proof.
  intros Hpy Hparse.
  rewrite (process_regular_file_py ast_parse _ _ _ Hpy Hparse).
  repeat apply conj; reflexivity.
Qed.

Lemma scenario_report_witness :
  endswith "a.py" ".py" = true
  /\ dict_get (parse_node scenario_tree []) FUNCTIONS = None.
Proof.
  split; [reflexivity|].
  apply (scenario_report (fun _ => Some scenario_tree) "a.py" "import os");
    reflexivity.
Defined.

(** C3, as stated, fails: the report of the scenario has no [functions]
    and no [statements] entry at its top level, where the claim has empty
    sequences. *)
Lemma scenario_report_omits_empty_fields :
  ~ (forall (ast_parse : string -> option ast) file_name source,
        endswith file_name ".py" = true ->
        ast_parse source = Some scenario_tree ->
        exists report,
          process_regular_file ast_parse file_name source = Ok (VDict report)
          /\ dict_get report FUNCTIONS = Some (VList [])
          /\ dict_get report STATEMENTS = Some (VList [])).
Proof.
  intros H.
  destruct (H (fun _ => Some scenario_tree) "a.py" "import os" eq_refl eq_refl)
    as [report [Hr [Hf _]]].
  vm_compute in Hr. injection Hr as <-. discriminate Hf.
Qed.

End ScenarioFacts.

(* ===================================================================== *)
(** ** Key order and the JSON text *)
(* ===================================================================== *)
Section JsonFacts.
Import PyStr PyValue PyAst Analyzer Props.








Lemma dumps_VList items :
  dumps (VList items)
  = attempt chunks <- dumps_items items;
    Ok (String.append "[" (String.append (join "," chunks) "]")).
Proof. reflexivity. Qed.

Lemma dumps_VDict entries :
  dumps (VDict entries)
  = attempt chunks <- dumps_entries entries;
    Ok (String.append "{" (String.append (join "," chunks) "}")).
Proof. reflexivity. Qed.












End JsonFacts.

(* ===================================================================== *)
(** ** The directory walk *)
(* ===================================================================== *)

Section LoopFacts.
Import Walker.
Context {A S : Type} (body : S -> A -> result S).


(** The loop raises what one of its turns raises. *)
Lemma for_each_raise_inv l s e :
  for_each body l s = Raise e ->
  exists x s', In x l /\ body s' x = Raise e.
Proof.
  revert s. induction l as [|a l IH]; intros s; simpl; [discriminate|].
  destruct (body s a) as [s'|e'] eqn:E; simpl.
  - intros H. destruct (IH _ H) as [x [s0 [Hx Hb]]].
    exists x, s0. split; [now right | exact Hb].
  - intros [= <-]. exists a, s. split; [now left | exact E].
Qed.


End LoopFacts.

Section WalkFacts.
Import PyStr PyValue PyAst Analyzer Walker Props.

Variable ast_parse : string -> option ast.
Variable files_to_ignore : list string.

Local Abbreviation process_entry := (process_entry ast_parse files_to_ignore).
Local Abbreviation process_directory :=
  (process_directory ast_parse files_to_ignore).
Local Abbreviation kept := (fun k => negb (ignored files_to_ignore k)).








End WalkFacts.

Section AbortFacts.
Import PyStr PyValue PyAst Analyzer Walker Props.

Variable ast_parse : string -> option ast.
Variable files_to_ignore : list string.

Local Abbreviation process_entry := (process_entry ast_parse files_to_ignore).
Local Abbreviation process_directory :=
  (process_directory ast_parse files_to_ignore).


End AbortFacts.






(* ===================================================================== *)
(** ** The dispatcher and the remote fetch *)
(* ===================================================================== *)

Section SegmentFacts.
Import PyStr Props.

(** Either the separator does not occur and the text is one piece, or it
    occurs and the last piece is what follows its last occurrence. *)
Lemma split_rfind_tail sep s :
  (rfind_tail sep s = None /\ split sep s = [s])
  \/ (exists t w ws,
         rfind_tail sep s = Some t /\ split sep s = w :: ws
         /\ ws <> [] /\ List.last ws EmptyString = t).
Proof.
  induction s as [|a r IH]; simpl.
  - left. split; reflexivity.
  - destruct IH as [[Hnone Hsplit]|[t [w [ws [Hsome [Hsplit [Hne Hlast]]]]]]].
    + rewrite Hnone, Hsplit. destruct (Ascii.eqb a sep).
      * right. exists r, EmptyString, [r]. repeat split. discriminate.
      * left. split; reflexivity.
    + rewrite Hsome, Hsplit. right. destruct (Ascii.eqb a sep).
      * exists t, EmptyString, (w :: ws). repeat split; [discriminate|].
        destruct ws; [contradiction | exact Hlast].
      * exists t, (String a w), ws. repeat split; assumption.
Qed.

(** [url.rsplit('/', 1)[-1]] is the last path segment of [url]. *)
Lemma rsplit1_last_final_segment url :
  rsplit1_last slash url = final_segment url.
Proof.
  unfold rsplit1_last, final_segment.
  destruct (split_rfind_tail slash url)
    as [[Hnone Hsplit]|[t [w [ws [Hsome [Hsplit [Hne Hlast]]]]]]].
  - now rewrite Hnone, Hsplit.
  - rewrite Hsome, Hsplit. destruct ws; [contradiction | now symmetry].
Qed.

End SegmentFacts.

Section DispatchFacts.
Import PyStr PyValue PyAst Analyzer Walker Props.

Variable ast_parse : string -> option ast.
Variable files_to_ignore : list string.
Variable urlparse_scheme : string -> string.
Variable clone_from : string -> result (list (string * fsnode)).
Variable mkdtemp : gmap string fsnode -> string.

Local Abbreviation parse_source_file :=
  (parse_source_file ast_parse files_to_ignore urlparse_scheme clone_from
                     mkdtemp).
Local Abbreviation process_url := (process_url clone_from mkdtemp).

Lemma parse_source_file_S fuel file_name project_name (w : gmap string fsnode) :
  parse_source_file (S fuel) file_name project_name w
  = if is_url urlparse_scheme file_name then
      process_url (parse_source_file fuel) file_name w
    else
      match w !! file_name with
      | Some (File source) =>
          (process_regular_file ast_parse file_name source, w)
      | Some (Dir children) =>
          (attempt nodes <-
             process_directory ast_parse files_to_ignore file_name file_name
               (Dir children);
           Ok (VDict (dict_set [] (project_key project_name file_name)
                               (VList nodes))), w)
      | _ => (Ok VNone, w)
      end.
Proof. reflexivity. Qed.

(** The [with] block leaves the file system as it found it, when the
    call inside it does. *)
Lemma process_url_world dispatch git_url (w : gmap string fsnode) :
  w !! mkdtemp w = None ->
  (forall f pn w', snd (dispatch f pn w') = w') ->
  snd (process_url dispatch git_url w) = w.
Proof.
  intros Hfresh Hdispatch. unfold Walker.process_url.
  destruct (clone_from git_url) as [tree|e].
  - specialize (Hdispatch (mkdtemp w) (Some (rsplit1_last slash git_url))
                  (<[mkdtemp w:=Dir tree]> (<[mkdtemp w:=Dir []]> w))).
    destruct (dispatch _ _ _) as [r w']. simpl in *. subst w'.
    rewrite insert_insert_eq. now apply delete_insert_id.
  - simpl. now apply delete_insert_id.
Qed.

Lemma parse_source_file_world fuel :
  (forall w : gmap string fsnode, w !! mkdtemp w = None) ->
  forall file_name project_name w,
    snd (parse_source_file fuel file_name project_name w) = w.
Proof.
  intros Hfresh. induction fuel as [|fuel IH]; intros file_name project_name w.
  - reflexivity.
  - rewrite parse_source_file_S. destruct (is_url _ _).
    + apply process_url_world; [apply Hfresh | apply IH].
    + destruct (w !! file_name) as [[source|children|]|]; reflexivity.
Qed.

Lemma process_url_result dispatch git_url (w : gmap string fsnode) :
  fst (process_url dispatch git_url w)
  = match clone_from git_url with
    | Ok tree =>
        fst (dispatch (mkdtemp w) (Some (final_segment git_url))
                      (<[mkdtemp w:=Dir tree]> w))
    | Raise e => Raise e
    end.
Proof.
  unfold Walker.process_url. rewrite rsplit1_last_final_segment.
  destruct (clone_from git_url) as [tree|e]; [|reflexivity].
  rewrite insert_insert_eq. now destruct (dispatch _ _ _).
Qed.

End DispatchFacts.

(** C9: a call on a remote repository leaves the file system as it was,
    the directory made for the clone included, whether the clone fails,
    the analysis fails or it returns; the analysis is the dispatcher's,
    on that directory, with the last path segment of the URL for project
    name, which is the key of the result. *)
Theorem clone_directory_removed
        ast_parse files_to_ignore urlparse_scheme clone_from mkdtemp
        fuel git_url project_name (w : gmap string Walker.fsnode) :
  (forall w' : gmap string Walker.fsnode, w' !! mkdtemp w' = None) ->
  Walker.is_url urlparse_scheme git_url = true ->
  let dispatch :=
    Walker.parse_source_file ast_parse files_to_ignore urlparse_scheme
                             clone_from mkdtemp in
  snd (dispatch (S fuel) git_url project_name w) = w
  /\ snd (dispatch (S fuel) git_url project_name w) !! mkdtemp w = None
  /\ fst (dispatch (S fuel) git_url project_name w)
     = match clone_from git_url with
       | Ok tree =>
           fst (dispatch fuel (mkdtemp w) (Some (Props.final_segment git_url))
                         (<[mkdtemp w:=Walker.Dir tree]> w))
       | Raise e => Raise e
       end
  /\ (forall tree nodes segment fuel',
         clone_from git_url = Ok tree ->
         Walker.is_url urlparse_scheme (mkdtemp w) = false ->
         Walker.process_directory ast_parse files_to_ignore
           (mkdtemp w) (mkdtemp w) (Walker.Dir tree) = Ok nodes ->
         Props.final_segment git_url = segment ->
         segment <> EmptyString ->
         fuel = S fuel' ->
         fst (dispatch (S fuel) git_url project_name w)
         = Ok (PyValue.VDict [(segment, PyValue.VList nodes)])).
Proof.
  intros Hfresh Hurl dispatch.
  assert (Hworld : snd (dispatch (S fuel) git_url project_name w) = w)
    by now apply parse_source_file_world.
  assert (Hres : fst (dispatch (S fuel) git_url project_name w)
                 = match clone_from git_url with
                   | Ok tree =>
                       fst (dispatch fuel (mkdtemp w)
                              (Some (Props.final_segment git_url))
                              (<[mkdtemp w:=Walker.Dir tree]> w))
                   | Raise e => Raise e
                   end).
  { unfold dispatch. rewrite parse_source_file_S, Hurl.
    apply process_url_result. }
  repeat apply conj.
  - exact Hworld.
  - rewrite Hworld. apply Hfresh.
  - exact Hres.
  - intros tree nodes segment fuel' Hclone Htmp Hnodes Hseg Hne ->.
    rewrite Hres, Hclone. unfold dispatch.
    rewrite parse_source_file_S, Htmp, lookup_insert_eq, Hnodes, Hseg.
    destruct segment; [contradiction|]. reflexivity.
Qed.

Lemma clone_directory_removed_witness :
  snd (Walker.parse_source_file Props.sample_parse [] Props.sample_scheme
         Props.sample_clone Props.sample_mkdtemp 2 "https://host/user/repo"
         None ∅) = ∅.
Proof.
  apply (clone_directory_removed Props.sample_parse [] Props.sample_scheme
           Props.sample_clone Props.sample_mkdtemp 1 "https://host/user/repo"
           None ∅).
  - intros w'. unfold Props.sample_mkdtemp.
    apply (not_elem_of_dom_1 w'), is_fresh.
  - reflexivity.
Defined.

Lemma process_url_ext clone_from mkdtemp dispatch dispatch' git_url
      (w : gmap string Walker.fsnode) :
  (forall file_name project_name w',
      dispatch file_name project_name w' = dispatch' file_name project_name w') ->
  Walker.process_url clone_from mkdtemp dispatch git_url w
  = Walker.process_url clone_from mkdtemp dispatch' git_url w.
Proof.
  intros H. unfold Walker.process_url.
  destruct (clone_from git_url); [now rewrite H | reflexivity].
Qed.

(** Where [urlparse] raises nothing, the dispatcher is the one that reads
    the scheme directly. *)
Lemma locator_dispatch_total
      ast_parse files_to_ignore urlparse urlparse_scheme clone_from mkdtemp :
  (forall s, urlparse s = Ok (urlparse_scheme s)) ->
  forall fuel file_name project_name (w : gmap string Walker.fsnode),
    Locator.parse_source_file ast_parse files_to_ignore urlparse
      clone_from mkdtemp fuel file_name project_name w
    = Walker.parse_source_file ast_parse files_to_ignore urlparse_scheme
        clone_from mkdtemp fuel file_name project_name w.
Proof.
  intros Hparse. induction fuel as [|fuel IH]; intros file_name project_name w.
  - reflexivity.
  - cbn [Locator.parse_source_file Walker.parse_source_file].
    rewrite Hparse. unfold Walker.is_url, Locator.network_scheme.
    destruct (existsb _ _); [|reflexivity].
    apply process_url_ext. exact IH.
Qed.

(** C10, as amended: a locator that [urlparse] reads, with a scheme that
    is neither [http] nor [https], and that names neither a file nor a
    directory makes the dispatcher return [None], nothing raised and the
    file system as it was; a locator that [urlparse] rejects makes the
    dispatcher raise what [urlparse] raises, before any test. *)
Theorem unknown_locator_returns_None
        ast_parse files_to_ignore urlparse clone_from mkdtemp
        fuel file_name project_name (w : gmap string Walker.fsnode) :
  Walker.isfile w file_name = false ->
  Walker.isdir w file_name = false ->
  (forall scheme,
      urlparse file_name = Ok scheme ->
      Locator.network_scheme scheme = false ->
      Locator.parse_source_file ast_parse files_to_ignore urlparse
        clone_from mkdtemp (S fuel) file_name project_name w
      = (Ok PyValue.VNone, w))
  /\ (forall e,
         urlparse file_name = Raise e ->
         Locator.parse_source_file ast_parse files_to_ignore urlparse
           clone_from mkdtemp (S fuel) file_name project_name w
         = (Raise e, w)).
Proof.
  intros Hfile Hdir. split.
  - intros scheme Hurl Hnet. cbn [Locator.parse_source_file].
    rewrite Hurl, Hnet. unfold Walker.isfile, Walker.isdir in *.
    destruct (w !! file_name) as [[source|children|]|];
      [discriminate Hfile | discriminate Hdir | reflexivity | reflexivity].
  - intros e Hurl. cbn [Locator.parse_source_file]. now rewrite Hurl.
Qed.

Lemma unknown_locator_returns_None_witness :
  Locator.parse_source_file Props.sample_parse [] Props.sample_urlparse
    Props.sample_clone Props.sample_mkdtemp 1 "ftp://host/nowhere" None ∅
  = (Ok PyValue.VNone, ∅)
  /\ Locator.parse_source_file Props.sample_parse [] Props.sample_urlparse
       Props.sample_clone Props.sample_mkdtemp 1 "ftp://[" None ∅
     = (Raise ValueError, ∅).
Proof.
  split.
  - destruct (unknown_locator_returns_None Props.sample_parse []
                Props.sample_urlparse Props.sample_clone
                Props.sample_mkdtemp 0 "ftp://host/nowhere" None ∅)
      as [Hnone _]; [reflexivity | reflexivity |].
    apply (Hnone EmptyString); reflexivity.
  - destruct (unknown_locator_returns_None Props.sample_parse []
                Props.sample_urlparse Props.sample_clone
                Props.sample_mkdtemp 0 "ftp://[" None ∅)
      as [_ Hraise]; [reflexivity | reflexivity |].
    apply (Hraise ValueError); reflexivity.
Defined.

(** C10, as stated, fails: the locator [ftp://[] is no URL with the
    scheme [http] or [https], and names neither a file nor a directory
    of the empty file system; [urlparse] raises [ValueError] on it, and
    so does the dispatcher. *)
Lemma unknown_locator_may_raise :
  ~ (forall ast_parse files_to_ignore urlparse clone_from mkdtemp
            fuel file_name project_name (w : gmap string Walker.fsnode),
        (forall scheme, urlparse file_name = Ok scheme ->
                        Locator.network_scheme scheme = false) ->
        Walker.isfile w file_name = false ->
        Walker.isdir w file_name = false ->
        Locator.parse_source_file ast_parse files_to_ignore urlparse
          clone_from mkdtemp (S fuel) file_name project_name w
        = (Ok PyValue.VNone, w)).
Proof.
  intros H.
  specialize (H Props.sample_parse [] Props.sample_urlparse Props.sample_clone
                Props.sample_mkdtemp 0 "ftp://[" None ∅).
  assert (Hscheme : forall scheme,
             Props.sample_urlparse "ftp://[" = Ok scheme ->
             Locator.network_scheme scheme = false)
    by (intros scheme; discriminate).
  assert (Hraise : Locator.parse_source_file Props.sample_parse []
                     Props.sample_urlparse Props.sample_clone
                     Props.sample_mkdtemp 1 "ftp://[" None ∅
                   = (Raise ValueError, ∅)) by reflexivity.
  rewrite H in Hraise; [discriminate Hraise | exact Hscheme | | ];
    reflexivity.
Qed.

(* ===================================================================== *)
(** ** Reports as four sequences *)
(* ===================================================================== *)

Section ReportFacts.
Import PyValue PyAst Analyzer Reports.

Lemma dict_append_present (d : dict) k l x :
  dict_get d k = Some (VList l) ->
  dict_append d k x = dict_set d k (VList (l ++ [x])).
Proof.
  intros H. unfold dict_append, defaultdict_touch, defaultdict_getitem.
  now rewrite H, H.
Qed.

Lemma dict_set_twice (d : dict) k v0 v :
  dict_set (dict_set d k v0) k v = dict_set d k v.
Proof.
  induction d as [|[k' v'] d IH]; simpl.
  - now rewrite String.eqb_refl.
  - destruct (String.eqb k' k) eqn:E; simpl; rewrite E; [reflexivity|].
    now rewrite IH.
Qed.

Lemma dict_append_absent (d : dict) k x :
  dict_get d k = None -> dict_append d k x = dict_set d k (VList [x]).
Proof.
  intros H. unfold dict_append, defaultdict_touch, defaultdict_getitem.
  now rewrite H, dict_get_set_eq, dict_set_twice.
Qed.

Lemma field_items_append_eq (d : dict) k x :
  list_or_absent d k = true ->
  field_items (dict_append d k x) k = field_items d k ++ [x].
Proof.
  unfold list_or_absent, field_items. rewrite dict_get_append_eq.
  unfold defaultdict_getitem.
  destruct (dict_get d k) as [[]|]; try discriminate; reflexivity.
Qed.

Lemma field_items_append_ne (d : dict) k k' x :
  k <> k' -> field_items (dict_append d k x) k' = field_items d k'.
Proof. intros H. unfold field_items. now rewrite dict_get_append_ne. Qed.

Lemma list_or_absent_append (d : dict) k k' x :
  list_or_absent d k' = true -> list_or_absent (dict_append d k x) k' = true.
Proof.
  unfold list_or_absent. destruct (string_dec k k') as [<-|Hne].
  - rewrite dict_get_append_eq. unfold defaultdict_getitem.
    destruct (dict_get d k) as [[]|]; try discriminate; reflexivity.
  - now rewrite dict_get_append_ne.
Qed.

Lemma report_ok_field (d : dict) k :
  report_ok d = true -> In k NodeType -> list_or_absent d k = true.
Proof.
  unfold report_ok. rewrite forallb_forall. intros H Hk. now apply H.
Qed.

Lemma report_ok_append (d : dict) k x :
  report_ok d = true -> report_ok (dict_append d k x) = true.
Proof.
  unfold report_ok. rewrite !forallb_forall. intros H k' Hk'.
  apply list_or_absent_append. now apply H.
Qed.

(** A [visit_] method other than the two for imports appends one value,
    the same whatever the report, to one of the four fields. *)
Lemma visit_appends_one n :
  recognized n = true ->
  (exists k x, In k NodeType /\ forall d, visit n d = dict_append d k x)
  \/ (exists names,
         forall d,
           visit n d
           = fold_left (fun acc a => dict_append acc IMPORTS (VStr (alias_name a)))
                       names d).
Proof.
  destruct n; try discriminate; intros _;
    try (right; eexists; intros d; reflexivity);
    left; do 2 eexists; (split; [|intros d; reflexivity]); simpl; auto.
Qed.

End ReportFacts.

Section Accumulation.
Import PyValue PyAst Analyzer Reports.

Lemma accumulating_id : accumulating (fun d => d).
Proof.
  intros d Hd. split; [exact Hd|]. intros k _.
  unfold field_items at 3. simpl. now rewrite app_nil_r.
Qed.

Lemma accumulating_compose f g :
  accumulating f -> accumulating g -> accumulating (fun d => g (f d)).
Proof.
  intros Hf Hg d Hd.
  destruct (Hf d Hd) as [Hfd Hfk].
  destruct (Hf [] eq_refl) as [Hf0 _].
  destruct (Hg (f d) Hfd) as [Hgd Hgk].
  destruct (Hg (f []) Hf0) as [_ Hg0].
  split; [exact Hgd|]. intros k Hk.
  now rewrite (Hgk k Hk), (Hfk k Hk), (Hg0 k Hk), app_assoc.
Qed.

Lemma accumulating_append k x :
  In k NodeType -> accumulating (fun d => dict_append d k x).
Proof.
  intros Hk d Hd. split; [now apply report_ok_append|]. intros k' Hk'.
  destruct (string_dec k k') as [<-|Hne].
  - rewrite !field_items_append_eq;
      [reflexivity | reflexivity | now apply report_ok_field].
  - rewrite !field_items_append_ne by assumption.
    unfold field_items at 3. simpl. now rewrite app_nil_r.
Qed.

Lemma accumulating_ext f g :
  (forall d, f d = g d) -> accumulating f -> accumulating g.
Proof.
  intros E Hf d Hd. rewrite <- !E. now apply Hf.
Qed.

Lemma accumulating_imports names :
  accumulating
    (fun d => fold_left (fun acc a => dict_append acc IMPORTS (VStr (alias_name a)))
                        names d).
Proof.
  induction names as [|a names IH]; simpl.
  - apply accumulating_id.
  - apply (accumulating_compose
             (fun d => dict_append d IMPORTS (VStr (alias_name a))) _);
      [|exact IH].
    apply accumulating_append. simpl. auto.
Qed.

Lemma accumulating_visit_all l :
  Forall (fun n => accumulating (visit n)) l -> accumulating (visit_all l).
Proof.
  induction 1 as [|n l Hn _ IH].
  - apply accumulating_id.
  - apply (accumulating_ext (fun d => visit_all l (visit n d))); [reflexivity|].
    now apply accumulating_compose.
Qed.

Lemma accumulating_visit n : accumulating (visit n).
Proof.
  induction n as [n IH] using ast_ind_children.
  destruct (recognized n) eqn:R.
  - destruct (visit_appends_one n R) as [[k [x [Hk E]]]|[names E]].
    + apply (accumulating_ext (fun d => dict_append d k x));
        [intros d; now rewrite E | now apply accumulating_append].
    + eapply accumulating_ext; [intros d; symmetry; apply E|].
      apply accumulating_imports.
  - apply (accumulating_ext (visit_all (iter_child_nodes n))).
    + intros d. symmetry. now apply generic_visit_eq.
    + now apply accumulating_visit_all.
Qed.

(** A visit leaves alone every key that is none of the four fields. *)
Lemma visit_frame n :
  forall d k, ~ In k NodeType -> dict_get (visit n d) k = dict_get d k.
Proof.
  induction n as [n IH] using ast_ind_children. intros d k Hk.
  assert (Happ : forall k' x d', In k' NodeType ->
                   dict_get (dict_append d' k' x) k = dict_get d' k).
  { intros k' x d' Hk'. apply dict_get_append_ne. intros ->. contradiction. }
  destruct (recognized n) eqn:R.
  - destruct (visit_appends_one n R) as [[k' [x [Hk' E]]]|[names E]];
      rewrite E.
    + now apply Happ.
    + clear E. revert d. induction names as [|a names IHn]; intros d; simpl.
      * reflexivity.
      * rewrite IHn. apply Happ. simpl. auto.
  - rewrite (generic_visit_eq n d R). clear R.
    revert d. induction IH as [|c cs Hc _ IHcs]; intros d.
    + reflexivity.
    + change (visit_all (c :: cs) d) with (visit_all cs (visit c d)).
      rewrite IHcs. now apply Hc.
Qed.

End Accumulation.

Section NestedStatements.
Import PyValue PyAst Analyzer Reports.






End NestedStatements.

Section ReportTheorems.
Import PyValue PyAst Analyzer Reports.

(** X1: visiting a node with a report that already holds entries gives,
    in each of the four fields, the entries it held followed by those the
    same visit stores in an empty report: the accumulator only ever
    appends, in visit order. *)
Theorem visit_appends_to_report n d :
  report_ok d = true ->
  report_ok (visit n d) = true
  /\ Forall (fun k => field_items (visit n d) k
                      = field_items d k ++ field_items (visit n []) k)
            NodeType.
Proof.
  intros Hd. destruct (accumulating_visit n d Hd) as [Hok Hk].
  split; [exact Hok|]. apply List.Forall_forall. exact Hk.
Qed.

Lemma visit_appends_to_report_witness :
  field_items
    (visit (Import [ {| alias_name := "os"; alias_asname := None |} ])
           [(IMPORTS, VList [VStr "sys"])]) IMPORTS
  = [VStr "sys"; VStr "os"].
Proof.
  pose proof (visit_appends_to_report
                (Import [ {| alias_name := "os"; alias_asname := None |} ])
                [(IMPORTS, VList [VStr "sys"])] eq_refl) as [_ H].
  inversion H as [|? ? Himports _]. exact Himports.
Defined.

(** X2: a visit changes no key of the report other than the four
    fields: what an enclosing definition or the walker stored under
    another key is still there, unchanged, after any visit. *)
Theorem visit_keeps_other_keys n d k :
  ~ In k NodeType -> dict_get (visit n d) k = dict_get d k.
Proof. apply visit_frame. Qed.

Lemma visit_keeps_other_keys_witness :
  dict_get (visit Props.scenario_tree [("name", VStr "A")]) "name"
  = Some (VStr "A").
Proof.
  apply (visit_keeps_other_keys Props.scenario_tree [("name", VStr "A")] "name").
  simpl. intros [H|[H|[H|[H|[]]]]]; discriminate H.
Defined.

Lemma imports_of_generic n :
  recognized n = false ->
  imports_of n = flat_map imports_of (iter_child_nodes n).
Proof.
  destruct n; try discriminate; intros _; simpl;
    rewrite ?flat_map_app; simpl; rewrite ?app_nil_r; reflexivity.
Qed.

Lemma imports_of_visit_all l :
  Forall (fun n => field_items (visit n []) IMPORTS = map VStr (imports_of n)) l ->
  field_items (visit_all l []) IMPORTS = map VStr (flat_map imports_of l).
Proof.
  induction 1 as [|n l Hn Hl IH]; [reflexivity|].
  change (visit_all (n :: l) []) with (visit_all l (visit n [])).
  assert (Hacc : accumulating (visit_all l)).
  { apply accumulating_visit_all. apply List.Forall_forall.
    intros c _. apply accumulating_visit. }
  destruct (accumulating_visit n [] eq_refl) as [Hok _].
  destruct (Hacc (visit n []) Hok) as [_ Hk].
  rewrite (Hk IMPORTS) by (simpl; auto).
  simpl. now rewrite map_app, Hn, IH.
Qed.

Lemma field_items_imports_fold names :
  forall d, list_or_absent d IMPORTS = true ->
    field_items
      (fold_left (fun acc a => dict_append acc IMPORTS (VStr (alias_name a)))
                 names d) IMPORTS
    = field_items d IMPORTS ++ map VStr (map alias_name names).
Proof.
  induction names as [|a names IHn]; intros d Hd; simpl.
  - now rewrite app_nil_r.
  - rewrite IHn by now apply list_or_absent_append.
    rewrite field_items_append_eq by assumption.
    now rewrite <- app_assoc.
Qed.

Lemma imports_of_visit n :
  field_items (visit n []) IMPORTS = map VStr (imports_of n).
Proof.
  induction n as [n IH] using ast_ind_children.
  destruct (recognized n) eqn:R.
  - destruct n; try discriminate; try reflexivity.
    + exact (field_items_imports_fold names [] eq_refl).
    + exact (field_items_imports_fold names [] eq_refl).
  - rewrite (generic_visit_eq n [] R), (imports_of_generic n R).
    now apply imports_of_visit_all.
Qed.

(** X3: the [imports] of a report are the names of the import statements
    the traversal reaches, in source order, after the names the report
    already held; imports inside a class or a function body are not among
    them. *)
Theorem imports_in_source_order n d :
  report_ok d = true ->
  field_items (visit n d) IMPORTS
  = field_items d IMPORTS ++ map VStr (imports_of n).
Proof.
  intros Hd. destruct (accumulating_visit n d Hd) as [_ Hk].
  rewrite (Hk IMPORTS) by (simpl; auto).
  now rewrite imports_of_visit.
Qed.

Lemma imports_in_source_order_witness :
  field_items (visit Props.function_then_import []) IMPORTS = [VStr "os"].
Proof.
  apply (imports_in_source_order Props.function_then_import []).
  reflexivity.
Defined.

End ReportTheorems.

Section DefinitionTheorems.
Import PyValue PyAst Analyzer Reports.

Lemma visit_all_frame l d k :
  ~ In k NodeType -> dict_get (visit_all l d) k = dict_get d k.
Proof. exact (visit_frame (Module l) d k). Qed.

Lemma accumulating_body l : accumulating (visit_all l).
Proof. exact (accumulating_visit (Module l)). Qed.

Lemma not_a_field k :
  k = "name" \/ k = "bases" \/ k = "args" -> ~ In k NodeType.
Proof.
  intros [-> | [-> | ->]]; simpl; intros [H|[H|[H|[H|[]]]]]; discriminate H.
Qed.

(** The report of a definition's body, started from a dictionary [n0]
    that stores none of the four fields, holds in each field what the
    body stores in an empty report. *)
Lemma body_report l (n0 : dict) :
  Forall (fun k => dict_get n0 k = None) NodeType ->
  Forall (fun k => field_items (visit_all l n0) k
                   = field_items (parse_node (Module l) []) k) NodeType.
Proof.
  intros Hn0. apply List.Forall_forall. intros k Hk.
  assert (Hnone : dict_get n0 k = None)
    by exact (proj1 (List.Forall_forall _ _) Hn0 k Hk).
  assert (Hok : report_ok n0 = true).
  { unfold report_ok. apply forallb_forall. intros k' Hk'.
    unfold list_or_absent.
    now rewrite (proj1 (List.Forall_forall _ _) Hn0 k' Hk'). }
  destruct (accumulating_body l n0 Hok) as [_ H].
  rewrite (H k Hk). unfold field_items at 1. now rewrite Hnone.
Qed.

(** X4: a class definition adds one dictionary to [classes] and nothing
    to the other fields of the enclosing report.  The dictionary keeps
    the class name and the captured bases whatever the body does, and its
    four fields hold what the class body would give as a file of its
    own: nothing of the body reaches the enclosing report. *)
Theorem class_report_is_body_report name bases body decorator_list d :
  report_ok d = true ->
  exists cls,
    visit (ClassDef name bases body decorator_list) d
    = dict_append d CLASSES (VDict cls)
    /\ field_items (visit (ClassDef name bases body decorator_list) d) CLASSES
       = field_items d CLASSES ++ [VDict cls]
    /\ Forall (fun k => field_items
                          (visit (ClassDef name bases body decorator_list) d) k
                        = field_items d k)
              [IMPORTS; FUNCTIONS; STATEMENTS]
    /\ dict_get cls "name" = Some (VStr name)
    /\ dict_get cls "bases" = Some (VList (flat_map base_entry bases))
    /\ Forall (fun k => field_items cls k
                        = field_items (parse_node (Module body) []) k)
              NodeType.
Proof.
  intros Hd.
  exists (visit_all body [("name", VStr name);
                          ("bases", VList (flat_map base_entry bases))]).
  repeat apply conj.
  - reflexivity.
  - change (visit (ClassDef name bases body decorator_list) d)
      with (dict_append d CLASSES
              (VDict (visit_all body
                        [("name", VStr name);
                         ("bases", VList (flat_map base_entry bases))]))).
    apply field_items_append_eq. apply report_ok_field; simpl; auto.
  - repeat constructor;
      change (visit (ClassDef name bases body decorator_list) d)
        with (dict_append d CLASSES
                (VDict (visit_all body
                          [("name", VStr name);
                           ("bases", VList (flat_map base_entry bases))])));
      now apply field_items_append_ne.
  - rewrite visit_all_frame; [reflexivity | apply not_a_field; auto].
  - rewrite visit_all_frame; [reflexivity | apply not_a_field; auto].
  - apply body_report. repeat constructor.
Qed.

Lemma class_report_is_body_report_witness :
  exists cls,
    visit (ClassDef "A" [Name "Base" Load] [Pass] []) []
    = dict_append [] CLASSES (VDict cls)
    /\ dict_get cls "bases" = Some (VList [VStr "Base"]).
Proof.
  destruct (class_report_is_body_report "A" [Name "Base" Load] [Pass] [] []
              eq_refl) as [cls [H1 [_ [_ [_ [H5 _]]]]]].
  exists cls. split; [exact H1 | exact H5].
Defined.

(** X5: a function definition adds one dictionary to [functions] and
    nothing to the other fields of the enclosing report.  The dictionary
    keeps the function name and the names of the positional parameters,
    and its four fields hold what the function body would give as a file
    of its own. *)
Theorem function_report_is_body_report name args body decorator_list d :
  report_ok d = true ->
  exists fn,
    visit (FunctionDef name args body decorator_list) d
    = dict_append d FUNCTIONS (VDict fn)
    /\ field_items (visit (FunctionDef name args body decorator_list) d) FUNCTIONS
       = field_items d FUNCTIONS ++ [VDict fn]
    /\ Forall (fun k => field_items
                          (visit (FunctionDef name args body decorator_list) d) k
                        = field_items d k)
              [IMPORTS; CLASSES; STATEMENTS]
    /\ dict_get fn "name" = Some (VStr name)
    /\ dict_get fn "args" = Some (VList (map VStr (arguments_args args)))
    /\ Forall (fun k => field_items fn k
                        = field_items (parse_node (Module body) []) k)
              NodeType.
Proof.
  intros Hd.
  exists (visit_all body [("name", VStr name);
                          ("args", VList (map VStr (arguments_args args)))]).
  repeat apply conj.
  - reflexivity.
  - change (visit (FunctionDef name args body decorator_list) d)
      with (dict_append d FUNCTIONS
              (VDict (visit_all body
                        [("name", VStr name);
                         ("args", VList (map VStr (arguments_args args)))]))).
    apply field_items_append_eq. apply report_ok_field; simpl; auto.
  - repeat constructor;
      change (visit (FunctionDef name args body decorator_list) d)
        with (dict_append d FUNCTIONS
                (VDict (visit_all body
                          [("name", VStr name);
                           ("args", VList (map VStr (arguments_args args)))])));
      now apply field_items_append_ne.
  - rewrite visit_all_frame; [reflexivity | apply not_a_field; auto].
  - rewrite visit_all_frame; [reflexivity | apply not_a_field; auto].
  - apply body_report. repeat constructor.
Qed.

Lemma function_report_is_body_report_witness :
  exists fn,
    visit (FunctionDef "f"
             {| arguments_args := ["self"]; arguments_vararg := Some "rest";
                arguments_kwonlyargs := ["k"]; arguments_kwarg := None |}
             [Pass] []) []
    = dict_append [] FUNCTIONS (VDict fn)
    /\ dict_get fn "args" = Some (VList [VStr "self"]).
Proof.
  destruct (function_report_is_body_report "f"
              {| arguments_args := ["self"]; arguments_vararg := Some "rest";
                 arguments_kwonlyargs := ["k"]; arguments_kwarg := None |}
              [Pass] [] [] eq_refl) as [fn [H1 [_ [_ [_ [H5 _]]]]]].
  exists fn. split; [exact H1 | exact H5].
Defined.

End DefinitionTheorems.

(* ===================================================================== *)
(** ** Reports that hold a [ctx] object *)
(* ===================================================================== *)

Section SerializationFacts.
Import PyStr PyValue PyAst Analyzer Reports.

Lemma dumps_items_ctx_free items :
  Forall (fun v => (ctx_free v = true -> exists text, dumps v = Ok text)
                   /\ (ctx_free v = false -> dumps v = Raise TypeError))
         items ->
  (forallb ctx_free items = true ->
   exists chunks, dumps_items items = Ok chunks)
  /\ (forallb ctx_free items = false ->
      dumps_items items = Raise TypeError).
Proof.
  induction 1 as [|x items [Hx1 Hx0] _ [IH1 IH0]]; simpl.
  - split; [now exists [] | discriminate].
  - destruct (ctx_free x) eqn:Ex; simpl.
    + destruct (Hx1 eq_refl) as [t Ht]. rewrite Ht. simpl. split.
      * intros H. destruct (IH1 H) as [ts Hts]. rewrite Hts. now eexists.
      * intros H. now rewrite (IH0 H).
    + split; [discriminate|]. intros _. now rewrite (Hx0 eq_refl).
Qed.

Lemma dumps_entries_ctx_free (entries : dict) :
  Forall (fun e => (ctx_free (snd e) = true ->
                    exists text, dumps (snd e) = Ok text)
                   /\ (ctx_free (snd e) = false ->
                       dumps (snd e) = Raise TypeError))
         entries ->
  (forallb (fun e => ctx_free (snd e)) entries = true ->
   exists chunks, dumps_entries entries = Ok chunks)
  /\ (forallb (fun e => ctx_free (snd e)) entries = false ->
      dumps_entries entries = Raise TypeError).
Proof.
  induction 1 as [|[k x] entries [Hx1 Hx0] _ [IH1 IH0]]; simpl in *.
  - split; [now exists [] | discriminate].
  - destruct (ctx_free x) eqn:Ex; simpl.
    + destruct (Hx1 eq_refl) as [t Ht]. rewrite Ht. simpl. split.
      * intros H. destruct (IH1 H) as [ts Hts]. rewrite Hts. now eexists.
      * intros H. now rewrite (IH0 H).
    + split; [discriminate|]. intros _. now rewrite (Hx0 eq_refl).
Qed.

Lemma dumps_ctx_free v :
  (ctx_free v = true -> exists text, dumps v = Ok text)
  /\ (ctx_free v = false -> dumps v = Raise TypeError).
Proof.
  induction v as [| n | s | c | items IH | entries IH] using value_ind;
    try (split; [intros _; now eexists | discriminate]).
  - split; [discriminate | reflexivity].
  - destruct (dumps_items_ctx_free items IH) as [H1 H0].
    rewrite dumps_VList. simpl. split; intros H.
    + destruct (H1 H) as [chunks ->]. now eexists.
    + now rewrite (H0 H).
  - destruct (dumps_entries_ctx_free entries IH) as [H1 H0].
    rewrite dumps_VDict. simpl. split; intros H.
    + destruct (H1 H) as [chunks ->]. now eexists.
    + now rewrite (H0 H).
Qed.

Local Abbreviation ctx_free_dict d := (ctx_free (VDict d)).

Lemma ctx_free_set_absent (d : dict) k v :
  dict_get d k = None ->
  ctx_free_dict (dict_set d k v) = ctx_free_dict d && ctx_free v.
Proof.
  induction d as [|[k' v'] d IH]; simpl.
  - intros _. now rewrite andb_true_r.
  - destruct (String.eqb k' k); [discriminate|]. intros H. simpl in *.
    rewrite (IH H). now rewrite andb_assoc.
Qed.

Lemma ctx_free_set_list (d : dict) k l x :
  dict_get d k = Some (VList l) ->
  ctx_free_dict (dict_set d k (VList (l ++ [x])))
  = ctx_free_dict d && ctx_free x.
Proof.
  induction d as [|[k' v'] d IH]; simpl; [discriminate|].
  destruct (String.eqb k' k).
  - intros [= ->]. simpl. rewrite forallb_app. simpl.
    rewrite andb_true_r.
    destruct (forallb ctx_free l), (ctx_free x),
      (forallb (fun e => ctx_free (snd e)) d); reflexivity.
  - intros H. simpl in *. rewrite (IH H). now rewrite andb_assoc.
Qed.

Lemma ctx_free_append (d : dict) k x :
  list_or_absent d k = true ->
  ctx_free_dict (dict_append d k x)
  = ctx_free_dict d && ctx_free x.
Proof.
  unfold list_or_absent. destruct (dict_get d k) as [[]|] eqn:G;
    try discriminate; intros _.
  - rewrite (dict_append_present _ _ _ _ G). now apply ctx_free_set_list.
  - rewrite (dict_append_absent _ _ _ G).
    rewrite (ctx_free_set_absent _ _ _ G). simpl.
    now rewrite andb_true_r.
Qed.

Lemma ctx_free_bases bases :
  forallb ctx_free (flat_map base_entry bases) = true.
Proof.
  induction bases as [|b bases IH]; [reflexivity|].
  simpl. rewrite forallb_app, IH. now destruct b.
Qed.

Lemma ctx_free_keywords (keywords : list (option string * ast)) :
  forallb ctx_free (map keyword_arg keywords) = true.
Proof.
  induction keywords as [|[[name|] v] ks IH]; simpl; auto.
Qed.

Lemma ctx_free_strings names :
  forallb ctx_free (map VStr names) = true.
Proof. induction names; simpl; auto. Qed.

(** The calls among the arguments of a call that reach [visit_Name]. *)
Local Abbreviation nested_call_visits_name :=
  (fun arg => match arg with
              | Call _ _ _ => visits_name arg
              | _ => false
              end).

Lemma ctx_free_call_node func args keywords :
  ctx_free_dict (call_node func args keywords)
  = forallb ctx_free (flat_map arg_entry args).
Proof.
  pose proof (ctx_free_keywords keywords) as K.
  unfold call_node.
  destruct func; simpl; rewrite K; now rewrite andb_true_r.
Qed.

Lemma visits_name_generic n :
  recognized n = false ->
  visits_name n = existsb visits_name (iter_child_nodes n).
Proof.
  destruct n; try discriminate; intros _; simpl;
    rewrite ?existsb_app; simpl; rewrite ?orb_false_r, ?orb_assoc;
    reflexivity.
Qed.

(** What a visit does to a report that can be appended to: the report
    holds no [ctx] object afterwards exactly when it held none before
    and the visit has not reached a name. *)
Local Abbreviation tracks n :=
  (forall d, report_ok d = true ->
             ctx_free_dict (visit n d)
             = ctx_free_dict d && negb (visits_name n)).

Lemma ctx_free_visit_all l :
  Forall (fun n => tracks n) l ->
  forall d, report_ok d = true ->
            ctx_free_dict (visit_all l d)
            = ctx_free_dict d && negb (existsb visits_name l).
Proof.
  induction 1 as [|n l Hn _ IH]; intros d Hd.
  - simpl. now rewrite andb_true_r.
  - change (visit_all (n :: l) d) with (visit_all l (visit n d)).
    destruct (accumulating_visit n d Hd) as [Hok _].
    rewrite (IH _ Hok), (Hn d Hd). simpl.
    now rewrite negb_orb, andb_assoc.
Qed.

Lemma ctx_free_imports names :
  forall d, report_ok d = true ->
    ctx_free_dict
      (fold_left (fun acc a => dict_append acc IMPORTS (VStr (alias_name a)))
                 names d)
    = ctx_free_dict d.
Proof.
  induction names as [|a names IH]; intros d Hd; [reflexivity|].
  simpl fold_left. rewrite IH by now apply report_ok_append.
  rewrite ctx_free_append by (apply report_ok_field; simpl; auto).
  simpl. now rewrite andb_true_r.
Qed.

Lemma ctx_free_args args :
  Forall (fun n => tracks n) args ->
  forallb ctx_free (flat_map arg_entry args)
  = negb (existsb nested_call_visits_name args).
Proof.
  induction 1 as [|a args Ha _ IH]; [reflexivity|].
  simpl. rewrite forallb_app, IH, negb_orb. f_equal.
  destruct a; try reflexivity.
  unfold arg_entry. simpl forallb. rewrite andb_true_r.
  apply (Ha [] eq_refl).
Qed.

Lemma ctx_free_visit n : tracks n.
Proof.
  induction n as [n IH] using ast_ind_children. intros d Hd.
  destruct (recognized n) eqn:R.
  - destruct n; try discriminate.
    + change (visit (Import names) d)
        with (fold_left (fun acc a => dict_append acc IMPORTS
                                        (VStr (alias_name a))) names d).
      rewrite (ctx_free_imports names d Hd). simpl.
      now rewrite andb_true_r.
    + change (visit (ImportFrom module names level) d)
        with (fold_left (fun acc a => dict_append acc IMPORTS
                                        (VStr (alias_name a))) names d).
      rewrite (ctx_free_imports names d Hd). simpl.
      now rewrite andb_true_r.
    + change (visit (ClassDef name bases body decorator_list) d)
        with (dict_append d CLASSES
                (VDict (visit_all body
                          [("name", VStr name);
                           ("bases", VList (flat_map base_entry bases))]))).
      rewrite ctx_free_append by (apply report_ok_field; simpl; auto).
      f_equal.
      simpl in IH. apply Forall_app in IH. destruct IH as [_ IH].
      apply Forall_app in IH. destruct IH as [IH _].
      rewrite (ctx_free_visit_all body IH) by reflexivity.
      simpl. now rewrite ctx_free_bases.
    + change (visit (FunctionDef name args body decorator_list) d)
        with (dict_append d FUNCTIONS
                (VDict (visit_all body
                          [("name", VStr name);
                           ("args", VList (map VStr (arguments_args args)))]))).
      rewrite ctx_free_append by (apply report_ok_field; simpl; auto).
      f_equal.
      simpl in IH. apply Forall_app in IH. destruct IH as [IH _].
      rewrite (ctx_free_visit_all body IH) by reflexivity.
      simpl. now rewrite ctx_free_strings.
    + rewrite visit_Call_eq.
      rewrite ctx_free_append by (apply report_ok_field; simpl; auto).
      f_equal. rewrite ctx_free_call_node.
      simpl in IH. apply Forall_inv_tail in IH.
      apply Forall_app in IH. destruct IH as [IH _].
      now apply ctx_free_args.
    + change (visit (Name id ctx) d)
        with (dict_append d STATEMENTS
                (VDict [("name", VStr id); ("type", VCtx ctx)])).
      rewrite ctx_free_append by (apply report_ok_field; simpl; auto).
      reflexivity.
  - rewrite (generic_visit_eq n d R), (visits_name_generic n R).
    now apply ctx_free_visit_all.
Qed.

(** X7: after a visit the report holds a [ctx] object exactly when it
    held one before or the traversal has reached a name; one name visited
    anywhere, also inside a class, a function or a nested call, leaves a
    report on which [to_json] raises. *)
Theorem visited_name_blocks_serialization n d :
  report_ok d = true ->
  ctx_free (VDict (visit n d))
  = ctx_free (VDict d) && negb (visits_name n)
  /\ (visits_name n = true ->
      exists e, to_json (VDict (visit n d)) = Raise e).
Proof.
  intros Hd. pose proof (ctx_free_visit n d Hd) as H.
  split; [exact H|].
  intros Hn. exists TypeError.
  apply (dumps_ctx_free (VDict (visit n d))).
  rewrite H, Hn. simpl. now rewrite andb_false_r.
Qed.

Lemma visited_name_blocks_serialization_witness :
  exists e,
    to_json (VDict (visit (Module [Assign [Name "x" Store] (Num 1)]) []))
    = Raise e.
Proof.
  apply (visited_name_blocks_serialization
           (Module [Assign [Name "x" Store] (Num 1)]) []); reflexivity.
Defined.

End SerializationFacts.

(* ===================================================================== *)
(** ** More on the walk *)
(* ===================================================================== *)

Section WalkOutcome.
Import PyStr PyValue PyAst Analyzer Walker Props Reports.

Variable ast_parse : string -> option ast.
Variable files_to_ignore : list string.

Local Abbreviation process_entry := (process_entry ast_parse files_to_ignore).
Local Abbreviation process_directory :=
  (process_directory ast_parse files_to_ignore).




End WalkOutcome.



(* ===================================================================== *)
(** ** More on calls, the dispatcher and the handler *)
(* ===================================================================== *)

Section CallShape.
Import PyValue PyAst Analyzer Reports.

(** X10: the dictionary of a call has the keys [type], [args] and
    [keywords], in that order, and between [type] and [args] the key
    [func] exactly when the callee is a name or an attribute: for any
    other callee (a call, a subscript) no [func] is stored at all. *)
Theorem call_node_keys func args keywords :
  dict_keys (call_node func args keywords)
  = (if named_callee func then ["type"; "func"; "args"; "keywords"]
     else ["type"; "args"; "keywords"])
  /\ dict_get (call_node func args keywords) "type"
     = Some (VStr "function_call")
  /\ dict_get (call_node func args keywords) "func"
     = match func with
       | Name id _ => Some (VStr id)
       | Attribute _ attr _ => Some (VStr attr)
       | _ => None
       end.
Proof. destruct func; repeat apply conj; reflexivity. Qed.

End CallShape.

Section RouteFacts.
Import PyStr PyValue PyAst Analyzer Walker Props Reports.

Variable ast_parse : string -> option ast.
Variable files_to_ignore : list string.
Variable urlparse_scheme : string -> string.
Variable clone_from : string -> result (list (string * fsnode)).
Variable mkdtemp : gmap string fsnode -> string.

Local Abbreviation parse_source_file :=
  (parse_source_file ast_parse files_to_ignore urlparse_scheme clone_from
                     mkdtemp).
Lemma rfind_tail_trailing base :
  rfind_tail slash (String.append base "/") = Some EmptyString.
Proof. induction base as [|a r IH]; simpl; [reflexivity | now rewrite IH]. Qed.

Lemma final_segment_trailing base :
  final_segment (String.append base "/") = EmptyString.
Proof.
  rewrite <- rsplit1_last_final_segment. unfold rsplit1_last.
  now rewrite rfind_tail_trailing.
Qed.

Lemma parse_source_file_directory fuel file_name project_name
      (w : gmap string fsnode) children nodes :
  is_url urlparse_scheme file_name = false ->
  w !! file_name = Some (Dir children) ->
  process_directory ast_parse files_to_ignore file_name file_name (Dir children)
  = Ok nodes ->
  parse_source_file (S fuel) file_name project_name w
  = (Ok (VDict [(project_key project_name file_name, VList nodes)]), w).
Proof.
  intros Hurl Hw Hnodes.
  rewrite (parse_source_file_S ast_parse files_to_ignore urlparse_scheme
             clone_from mkdtemp), Hurl, Hw, Hnodes.
  reflexivity.
Qed.

End RouteFacts.

(** X11: for a repository URL that ends with a slash the project name
    taken from the URL is empty, so the dispatcher falls back on the base
    name of the path it is given: the result is keyed by the name of the
    temporary directory, not by the name of the repository. *)
Theorem trailing_slash_url_keyed_by_temporary_name
        ast_parse files_to_ignore urlparse_scheme clone_from mkdtemp
        fuel base project_name (w : gmap string Walker.fsnode) tree nodes :
  Walker.is_url urlparse_scheme (String.append base "/") = true ->
  clone_from (String.append base "/") = Ok tree ->
  Walker.is_url urlparse_scheme (mkdtemp w) = false ->
  Walker.process_directory ast_parse files_to_ignore (mkdtemp w) (mkdtemp w)
    (Walker.Dir tree) = Ok nodes ->
  fst (Walker.parse_source_file ast_parse files_to_ignore urlparse_scheme
         clone_from mkdtemp (S (S fuel)) (String.append base "/")
         project_name w)
  = Ok (PyValue.VDict [(PyStr.basename (mkdtemp w), PyValue.VList nodes)]).
Proof.
  intros Hurl Hclone Htmp Hnodes.
  rewrite parse_source_file_S, Hurl, process_url_result, Hclone.
  rewrite final_segment_trailing.
  rewrite (parse_source_file_directory ast_parse files_to_ignore
             urlparse_scheme clone_from mkdtemp fuel (mkdtemp w)
             (Some EmptyString) _ tree nodes Htmp (lookup_insert_eq _ _ _) Hnodes).
  reflexivity.
Qed.

Lemma trailing_slash_url_keyed_by_temporary_name_witness :
  exists nodes,
    fst (Walker.parse_source_file Props.sample_parse [] Props.sample_scheme
           (fun _ => Ok [("a.py", Walker.File EmptyString)])
           (fun _ => "/tmp/tmpk3") 2 "https://host/user/repo/" None ∅)
    = Ok (PyValue.VDict [("tmpk3", PyValue.VList nodes)]).
Proof.
  eexists.
  apply (trailing_slash_url_keyed_by_temporary_name Props.sample_parse []
           Props.sample_scheme
           (fun _ => Ok [("a.py", Walker.File EmptyString)])
           (fun _ => "/tmp/tmpk3") 0 "https://host/user/repo" None ∅
           [("a.py", Walker.File EmptyString)]);
    vm_compute; reflexivity.
Defined.

(** X12: the handler of [POST /parse], on a [.py] file the parser
    accepts, raises when the analysis reaches a name (any assignment to
    a variable does): the request has no JSON answer.  The file system
    is left as it was. *)
Theorem parse_route_fails_on_names
        ast_parse files_to_ignore urlparse clone_from mkdtemp
        fuel file_name (w : gmap string Walker.fsnode) source tree scheme :
  urlparse file_name = Ok scheme ->
  Locator.network_scheme scheme = false ->
  w !! file_name = Some (Walker.File source) ->
  PyStr.endswith file_name ".py" = true ->
  ast_parse source = Some tree ->
  Reports.visits_name tree = true ->
  exists e,
    Locator.parser ast_parse files_to_ignore urlparse clone_from mkdtemp
      (S fuel) file_name w = (Raise e, w).
Proof.
  intros Hurl Hnet Hw Hpy Hparse Hn. exists TypeError.
  unfold Locator.parser. cbn [Locator.parse_source_file].
  rewrite Hurl, Hnet, Hw.
  rewrite (process_regular_file_py ast_parse _ _ _ Hpy Hparse). unfold bind.
  f_equal. apply (dumps_ctx_free (PyValue.VDict (Analyzer.visit tree []))).
  rewrite (ctx_free_visit tree [] eq_refl), Hn. reflexivity.
Qed.

Lemma parse_route_fails_on_names_witness :
  exists e,
    Locator.parser (fun _ => Some (PyAst.Module
                                     [PyAst.Assign [PyAst.Name "x" Store]
                                                   (PyAst.Num 1)]))
                   [] Props.sample_urlparse Props.sample_clone
                   Props.sample_mkdtemp
                   1 "m.py" {[ "m.py" := Walker.File "x = 1" ]}
    = (Raise e, {[ "m.py" := Walker.File "x = 1" ]}).
Proof.
  apply (parse_route_fails_on_names
           (fun _ => Some (PyAst.Module
                             [PyAst.Assign [PyAst.Name "x" Store] (PyAst.Num 1)]))
           [] Props.sample_urlparse Props.sample_clone Props.sample_mkdtemp
           0 "m.py" {[ "m.py" := Walker.File "x = 1" ]} "x = 1"
           (PyAst.Module [PyAst.Assign [PyAst.Name "x" Store] (PyAst.Num 1)])
           EmptyString);
    reflexivity.
Defined.

(** X13: the handler of [POST /parse] answers the JSON text [null], and
    raises nothing, both for a file whose name does not end in [.py],
    which is never handed to the parser, and for a locator that names
    nothing, when [urlparse] reads the locator and finds no network
    scheme. *)
Theorem parse_route_null
        ast_parse files_to_ignore urlparse clone_from mkdtemp
        fuel file_name (w : gmap string Walker.fsnode) scheme :
  urlparse file_name = Ok scheme ->
  Locator.network_scheme scheme = false ->
  Walker.isdir w file_name = false ->
  (Walker.isfile w file_name = true -> PyStr.endswith file_name ".py" = false) ->
  Locator.parser ast_parse files_to_ignore urlparse clone_from mkdtemp
    (S fuel) file_name w = (Ok "null", w).
Proof.
  intros Hurl Hnet Hdir Hfile. unfold Locator.parser.
  cbn [Locator.parse_source_file]. rewrite Hurl, Hnet.
  unfold Walker.isfile, Walker.isdir in *.
  destruct (w !! file_name) as [[source|children|]|];
    try discriminate; try reflexivity.
  unfold Walker.process_regular_file. now rewrite (Hfile eq_refl).
Qed.

Lemma parse_route_null_witness :
  Locator.parser Props.sample_parse [] Props.sample_urlparse Props.sample_clone
    Props.sample_mkdtemp 1 "notes.txt" {[ "notes.txt" := Walker.File "def" ]}
  = (Ok "null", {[ "notes.txt" := Walker.File "def" ]}).
Proof.
  apply (parse_route_null Props.sample_parse [] Props.sample_urlparse
           Props.sample_clone Props.sample_mkdtemp 0 "notes.txt"
           {[ "notes.txt" := Walker.File "def" ]} EmptyString); reflexivity.
Defined.
